(** * loader_aq.py: the document question-answering script

    A shallow embedding of [Langchain Projects/loader_aq.py].  The script is
    a Streamlit page: every interaction re-runs it from top to bottom.  One
    run is modelled as a computation in a state-and-exception monad over a
    [World] holding the process environment, the file system, the temporary
    name generator and the chronological trace of calls the script makes to
    its collaborators (Streamlit display calls, the prompt template, the
    chat model). *)

From Stdlib Require Import String Ascii DecimalString.
From stdpp Require Import base option list gmap.

Set Default Proof Using "Type".
Local Open Scope N_scope.
Local Open Scope list_scope.

(** ** Python values *)

(** A Python [str] is a sequence of Unicode code points; slicing and [len]
    count code points, not bytes. *)
Abbreviation char := N (only parsing).
Abbreviation str := (list N) (only parsing).
Abbreviation bytes := (list Byte.byte) (only parsing).

(** ASCII literals of the source; the few pictographs are given by their
    code point. *)
Definition py (s : string) : str :=
  List.map N_of_ascii (list_ascii_of_string s).

Definition page_facing_up : char := 128196.
Definition speech_balloon : char := 128172.
Definition check_mark : char := 9989.
Definition globe : char := 127760.
Definition bar_chart : char := 128202.
Definition closed_book : char := 128213.

Definition nl : char := 10.
Definition lbrace : char := 123.
Definition rbrace : char := 125.

Fixpoint str_eqb (a b : str) : bool :=
  match a, b with
  | [], [] => true
  | x :: a', y :: b' => N.eqb x y && str_eqb a' b'
  | _, _ => false
  end.

(** [str(n)] for a non-negative [int]. *)
Definition str_of_nat (n : nat) : str :=
  py (NilEmpty.string_of_uint (Nat.to_uint n)).

(** [sep.join(parts)] *)
Fixpoint join (sep : str) (parts : list str) : str :=
  match parts with
  | [] => []
  | [p] => p
  | p :: rest => p ++ sep ++ join sep rest
  end.

(** Truthiness of a [str] or a [list]: non-empty. *)
Definition truthy {A} (l : list A) : bool :=
  match l with [] => false | _ :: _ => true end.

(** A [dict] with [str] keys, in insertion order. *)
Definition dict (V : Type) := list (str * V).

Fixpoint dict_get {V} (d : dict V) (k : str) : option V :=
  match d with
  | [] => None
  | (k', v) :: d' => if str_eqb k' k then Some v else dict_get d' k
  end.

(** ** Exceptions and results *)

Inductive Exn :=
| IndexError                 (* list index out of range *)
| KeyError (k : str)         (* missing template variable *)
| ValueError                 (* malformed format string *)
| FileExistsError            (* no usable temporary file name found *)
| FileNotFoundError (p : str)
| LibraryError (msg : str).  (* raised inside a loader or the model API *)

Inductive result (A : Type) :=
| Ok (a : A)
| Raise (e : Exn).
Arguments Ok {A} a.
Arguments Raise {A} e.

Definition result_bind {A B} (r : result A) (k : A -> result B) : result B :=
  match r with
  | Ok a => k a
  | Raise e => Raise e
  end.

(** ** The prompt template

    [PromptTemplate(template=..., input_variables=['question', 'text'])]
    with the default f-string format: [{name}] is replaced by the value
    bound to [name], [{{] and [}}] stand for literal braces.  Values are
    inserted as they are; they are not scanned for fields. *)

Definition spaces16 : str := py "                ".

Definition template : str :=
  py "Answer the user question: {question}." ++ [nl; nl] ++
  spaces16 ++ py "Only find the answer in the uploaded text:" ++ [nl] ++
  py "{text}." ++ [nl] ++
  spaces16 ++ py "Format the answer in a structured way." ++ [nl] ++
  spaces16 ++ py "If the content contains a table, display it properly.".

Definition input_variables : list str := [py "question"; py "text"].

(** [field = Some name] while scanning inside a replacement field. *)
Fixpoint format_go (kw : dict str) (field : option str) (t : str)
  : result str :=
  match t with
  | [] =>
      match field with
      | None => Ok []
      | Some _ => Raise ValueError
      end
  | c :: rest =>
      match field with
      | Some name =>
          if N.eqb c rbrace then
            match dict_get kw name with
            | Some v => result_bind (format_go kw None rest)
                          (fun r => Ok (v ++ r))
            | None => Raise (KeyError name)
            end
          else format_go kw (Some (name ++ [c])) rest
      | None =>
          if N.eqb c lbrace then
            match rest with
            | c' :: rest' =>
                if N.eqb c' lbrace
                then result_bind (format_go kw None rest')
                       (fun r => Ok (lbrace :: r))
                else format_go kw (Some []) rest
            | [] => Raise ValueError
            end
          else if N.eqb c rbrace then
            match rest with
            | c' :: rest' =>
                if N.eqb c' rbrace
                then result_bind (format_go kw None rest')
                       (fun r => Ok (rbrace :: r))
                else Raise ValueError
            | [] => Raise ValueError
            end
          else result_bind (format_go kw None rest) (fun r => Ok (c :: r))
      end
  end.

(** [template.format] applied to the keyword arguments [kw]. *)
Definition template_format (kw : dict str) : result str :=
  format_go kw None template.

(** The dict literal the script passes to [qa_chain.invoke]. *)
Definition qa_input (question text : str) : dict str :=
  [(py "question", question); (py "text", text)].

(** The Prompt Composer as a function of the question and the excerpt. *)
Definition compose_prompt (question text : str) : result str :=
  template_format (qa_input question text).

Definition prompt_head : str := py "Answer the user question: ".
Definition prompt_middle : str :=
  py "." ++ [nl; nl] ++ spaces16 ++
  py "Only find the answer in the uploaded text:" ++ [nl].
Definition prompt_tail : str :=
  py "." ++ [nl] ++
  spaces16 ++ py "Format the answer in a structured way." ++ [nl] ++
  spaces16 ++ py "If the content contains a table, display it properly.".

(** ** Documents and displayed values *)

(** Metadata values: the loaders store strings (the source) and integers
    (the row or page number). *)
Inductive scalar :=
| SStr (s : str)
| SInt (n : Z).

(** Values handed to [st.write]. *)
Inductive obj :=
| VStr (s : str)
| VDict (d : dict scalar).

(** A LangChain [Document]. *)
Record Document := {
  page_content : str;
  metadata : dict scalar
}.

(** The chat model object returned by [init_chat_model]; the Google
    provider picks its key up from the environment when it is built. *)
Record ChatModel := {
  model : str;
  model_provider : str;
  api_key : option str
}.

(** ** The world of one run *)

Inductive Element :=
| Title (body : str)
| Header (body : str)
| Subheader (body : str)
| Markdown (body : str)
| Info (body : str)
| Written (args : list obj).

(** Calls made to the collaborators, oldest first.  Input widgets are
    modelled by the value they return and leave no event. *)
Inductive Event :=
| SetPageConfig (page_title layout : str)
| Main (e : Element)
| Sidebar (e : Element)
| PromptInvoke (input : dict str)
| ModelInit (m : ChatModel)
| ModelInvoke (m : ChatModel) (prompt : str).

Record World := {
  environ : gmap (list N) (list N);
  fs : gmap (list N) (list Byte.byte);
  tmp_draws : nat;        (* names drawn so far from the random sequence *)
  trace : list Event
}.

Definition set_environ (env : gmap (list N) (list N)) (w : World) : World :=
  {| environ := env; fs := fs w; tmp_draws := tmp_draws w;
     trace := trace w |}.
Definition set_fs (files : gmap (list N) (list Byte.byte)) (w : World)
  : World :=
  {| environ := environ w; fs := files; tmp_draws := tmp_draws w;
     trace := trace w |}.
Definition set_tmp_draws (n : nat) (w : World) : World :=
  {| environ := environ w; fs := fs w; tmp_draws := n; trace := trace w |}.
Definition log (e : Event) (w : World) : World :=
  {| environ := environ w; fs := fs w; tmp_draws := tmp_draws w;
     trace := trace w ++ [e] |}.

(** State and exceptions: a raised exception keeps the effects made so
    far and skips the rest of the run. *)
Definition M (A : Type) : Type := World -> result A * World.

Definition ret {A} (a : A) : M A := fun w => (Ok a, w).
Definition raise {A} (e : Exn) : M A := fun w => (Raise e, w).
Definition bind {A B} (m : M A) (k : A -> M B) : M B :=
  fun w =>
    match m w with
    | (Ok a, w') => k a w'
    | (Raise e, w') => (Raise e, w')
    end.
Definition lift {A} (r : result A) : M A := fun w => (r, w).
Definition get : M World := fun w => (Ok w, w).
Definition modify (f : World -> World) : M unit := fun w => (Ok tt, f w).
Definition emit (e : Event) : M unit := modify (log e).

Declare Scope py_scope.
Delimit Scope py_scope with py.
Notation "'let*' x ':=' c 'in' k" := (bind c (fun x => k))
  (at level 10, x name, c at level 100, k at level 200) : py_scope.
Notation "c >> k" := (bind c (fun _ => k))
  (at level 65, right associativity) : py_scope.
Local Open Scope py_scope.

(** [l[0]] *)
Definition first {A} (l : list A) : M A :=
  match l with
  | [] => raise IndexError
  | x :: _ => ret x
  end.

(** A library call that either raises or returns. *)
Definition library {A} (r : list N + A) : M A :=
  match r with
  | inl msg => raise (LibraryError msg)
  | inr a => ret a
  end.

(** ** What the run is given *)

Inductive DocType :=
| TextDocument
| WebBaseDocument
| CSVDocument
| PDFDocument.

(** The text of each option of the select box. *)
Definition option_label (t : DocType) : str :=
  match t with
  | TextDocument => py "Text Document"
  | WebBaseDocument => py "WebBase Document"
  | CSVDocument => py "CSV Document"
  | PDFDocument => py "PDF Document"
  end.

Definition options : list str :=
  List.map option_label
    [TextDocument; WebBaseDocument; CSVDocument; PDFDocument].

(** The state of the input widgets in this run. *)
Record Session := {
  document_type : DocType;          (* the select box *)
  user_question : str;              (* the question text input *)
  url : str;                        (* the URL text input *)
  upload : option (str * bytes);    (* name and content of the uploaded file *)
  clicked : option str              (* label of the button just clicked *)
}.

(** Streamlit's [UploadedFile], a readable byte stream. *)
Record UploadedFile := {
  file_name : str;
  getvalue : bytes;
  position : nat
}.

(** [uploaded_file.read()]: the bytes from the current position on.  The
    script drops the object afterwards, so the moved position is not kept. *)
Definition UploadedFile_read (f : UploadedFile) : bytes :=
  drop (position f) (getvalue f).

(** The libraries the script calls but does not define. *)
Record Extern := {
  dotenv_file : dict str;           (* entries of the .env file *)
  TMP_MAX : nat;                    (* tempfile.TMP_MAX *)
  gettempdir : str;                 (* tempfile.gettempdir() *)
  candidate_name : nat -> str;      (* the random name sequence *)
  TextLoader_load : str -> bytes -> str + list Document;
  WebBaseLoader_load : str -> str + list Document;
  CSVLoader_lazy_load : str -> bytes -> str + list Document;
  PyPDFLoader_load : str -> bytes -> str + list Document;
  chat_model_init : ChatModel -> str + unit;   (* building the provider's
                                                  client: raises when no
                                                  credentials are found *)
  chat_completion : ChatModel -> str -> str + str
}.

(** ** The script *)

Section Script.

Variable lib : Extern.
Variable ses : Session.

(** *** Streamlit *)

Definition st_set_page_config (page_title layout : str) : M unit :=
  emit (SetPageConfig page_title layout).
Definition st_title (body : str) : M unit := emit (Main (Title body)).
Definition st_markdown (body : str) : M unit := emit (Main (Markdown body)).
Definition st_info (body : str) : M unit := emit (Main (Info body)).
Definition st_subheader (body : str) : M unit :=
  emit (Main (Subheader body)).
Definition st_write (args : list obj) : M unit := emit (Main (Written args)).
Definition st_sidebar_header (body : str) : M unit :=
  emit (Sidebar (Header body)).
Definition st_sidebar_markdown (body : str) : M unit :=
  emit (Sidebar (Markdown body)).

(** The select box returns the text of the selected option. *)
Definition st_selectbox (label : str) (opts : list str) : M str :=
  ret (option_label (document_type ses)).

Definition st_text_input (label : str) (value : str) : M str := ret value.

(** Every run gets a new stream over the uploaded bytes, positioned at
    the start. *)
Definition st_file_uploader (label : str) (type : list str)
  : M (option UploadedFile) :=
  ret (match upload ses with
       | Some (n, content) =>
           Some {| file_name := n; getvalue := content; position := 0 |}
       | None => None
       end).

(** A button is [True] in the one run that follows its click. *)
Definition pressed (label : str) : bool :=
  match clicked ses with
  | Some l => str_eqb l label
  | None => false
  end.

Definition st_button (label : str) : M bool := ret (pressed label).

(** *** dotenv, tempfile and the file system *)

(** [load_dotenv()]: the entries of the .env file enter the environment;
    variables already set are not overridden. *)
Definition merge_dotenv (entries : dict str)
    (env : gmap (list N) (list N)) : gmap (list N) (list N) :=
  foldl (fun env kv =>
           match env !! kv.1 with
           | Some _ => env
           | None => <[kv.1 := kv.2]> env
           end)
        env entries.

Definition load_dotenv : M unit :=
  modify (fun w => set_environ (merge_dotenv (dotenv_file lib) (environ w)) w).

Definition tmp_path (seq : nat) (suffix : str) : str :=
  gettempdir lib ++ py "/" ++ py "tmp" ++ candidate_name lib seq ++ suffix.

(** The search of [tempfile] for an unused name: at most [tries] draws,
    the first name that does not exist is taken. *)
Fixpoint mkstemp_inner (tries seq : nat) (suffix : str)
    (files : gmap (list N) (list Byte.byte)) : option (nat * str) :=
  match tries with
  | O => None
  | S n =>
      let file := tmp_path seq suffix in
      match files !! file with
      | None => Some (S seq, file)
      | Some _ => mkstemp_inner n (S seq) suffix files
      end
  end.

Record TemporaryFile := {
  name : str;
  delete : bool
}.

(** [tempfile.NamedTemporaryFile(delete=..., suffix=...)]: creates the
    file, empty. *)
Definition NamedTemporaryFile (delete : bool) (suffix : str)
  : M TemporaryFile :=
  let* w := get in
  match mkstemp_inner (TMP_MAX lib) (tmp_draws w) suffix (fs w) with
  | Some (seq, file) =>
      modify (fun w => set_tmp_draws seq (set_fs (<[file := []]> (fs w)) w)) >>
      ret {| name := file; delete := delete |}
  | None =>
      modify (set_tmp_draws (tmp_draws w + TMP_MAX lib)) >>
      raise FileExistsError
  end.

(** [tmp_file.write(data)] on the file opened above. *)
Definition file_write (f : TemporaryFile) (data : bytes) : M unit :=
  let* w := get in
  match fs w !! name f with
  | Some old => modify (set_fs (<[name f := old ++ data]> (fs w)))
  | None => raise (FileNotFoundError (name f))
  end.

(** Leaving the [with] block closes the file, which removes it only when
    it was opened with [delete=True]. *)
Definition file_close (f : TemporaryFile) : M unit :=
  if delete f
  then modify (fun w => set_fs (base.delete (name f) (fs w)) w)
  else ret tt.

(** [with f: body]: the file is closed however the body ends. *)
Definition with_file {A} (f : TemporaryFile) (body : M A) : M A :=
  fun w =>
    match body w with
    | (r, w') => (r, snd (file_close f w'))
    end.

Definition read_file (path : str) : M bytes :=
  let* w := get in
  match fs w !! path with
  | Some content => ret content
  | None => raise (FileNotFoundError path)
  end.

(** Save uploaded file temporarily and return path *)
Definition save_uploaded_file (uploaded_file : UploadedFile) (suffix : str)
  : M str :=
  let* tmp_file := NamedTemporaryFile false suffix in
  with_file tmp_file
    (file_write tmp_file (UploadedFile_read uploaded_file) >>
     ret (name tmp_file)).

(** *** The model and the chain *)

(** [init_chat_model(model=..., model_provider=...)]: the call is made
    with the given name and provider; building the provider's client
    raises when it finds no credentials. *)
Definition init_chat_model (model model_provider : str) : M ChatModel :=
  let* w := get in
  let m := {| model := model; model_provider := model_provider;
              api_key := environ w !! py "GOOGLE_API_KEY" |} in
  emit (ModelInit m) >>
  library (chat_model_init lib m) >>
  ret m.

(** [template.invoke(input)] *)
Definition template_invoke (input : dict str) : M str :=
  emit (PromptInvoke input) >> lift (template_format input).

(** [llm_model.invoke(prompt)]: one request to the provider. *)
Definition llm_invoke (llm_model : ChatModel) (prompt : str) : M str :=
  emit (ModelInvoke llm_model prompt) >>
  library (chat_completion lib llm_model prompt).

(** [StrOutputParser]: the text of the reply. *)
Definition parser_invoke (message : str) : M str := ret message.

(** [qa_chain = template | llm_model | parser] *)
Definition qa_chain_invoke (llm_model : ChatModel) (input : dict str)
  : M str :=
  let* prompt := template_invoke input in
  let* message := llm_invoke llm_model prompt in
  parser_invoke message.

Definition answer_title : str := check_mark :: py " Answer".

(** *** Text document *)

(** The part of the text branch that runs once [docs] is loaded. *)
Definition text_document_loaded (llm_model : ChatModel)
    (user_question : str) (docs : list Document) : M unit :=
  (if truthy user_question && truthy docs then
     let* d := first docs in
     let* result :=
       qa_chain_invoke llm_model
         (qa_input user_question (take 2000 (page_content d))) in
     st_subheader answer_title >>
     st_write [VStr result]
   else ret tt) >>
  let* pressed := st_button (py "Show Full Text Content") in
  if pressed then
    st_subheader (page_facing_up :: py " File Content") >>
    let* d := first docs in
    st_write [VStr (page_content d)]
  else ret tt.

Definition text_document (llm_model : ChatModel) (user_question : str)
  : M unit :=
  st_info (page_facing_up ::
           py " Upload a plain text file (.txt). Each line or full text will be read.") >>
  let* text_file := st_file_uploader (py "Upload a text file") [py "txt"] in
  match text_file with
  | Some f =>
      let* temp_path := save_uploaded_file f (py ".txt") in
      let* content := read_file temp_path in
      let* docs := library (TextLoader_load lib temp_path content) in
      text_document_loaded llm_model user_question docs
  | None => ret tt
  end.

(** *** Webpage document *)

Definition webbase_document_loaded (llm_model : ChatModel)
    (user_question : str) (docs : list Document) : M unit :=
  (if truthy user_question then
     let* d := first docs in
     let* result :=
       qa_chain_invoke llm_model
         (qa_input user_question (take 2000 (page_content d))) in
     st_subheader answer_title >>
     st_write [VStr result]
   else ret tt) >>
  let* pressed := st_button (py "Show Page Content") in
  if pressed then
    st_subheader (globe :: py " Webpage Content") >>
    let* d := first docs in
    st_write [VStr (page_content d)]
  else ret tt.

Definition webbase_document (llm_model : ChatModel) (user_question : str)
  : M unit :=
  st_info (globe ::
           py " Enter a public webpage URL (HTML only). Not for PDFs or login-protected pages.") >>
  let* url := st_text_input (py "Enter URL:") (url ses) in
  if truthy url then
    let* docs := library (WebBaseLoader_load lib url) in
    webbase_document_loaded llm_model user_question docs
  else ret tt.

(** *** CSV document *)

(** [for i, doc in enumerate(docs)], entered with counter [i]. *)
Fixpoint show_rows (i : nat) (docs : list Document) : M unit :=
  match docs with
  | [] => ret tt
  | doc :: rest =>
      st_subheader (py "Row " ++ str_of_nat (i + 1)) >>
      st_write [VStr (page_content doc)] >>
      st_write [VStr (py "Metadata:"); VDict (metadata doc)] >>
      show_rows (S i) rest
  end.

Definition csv_document_loaded (llm_model : ChatModel)
    (user_question : str) (docs : list Document) : M unit :=
  let* pressed := st_button (py "Show CSV Content") in
  (if pressed then show_rows 0 docs else ret tt) >>
  if truthy user_question then
    let combined_text :=
      join [nl] (List.map page_content (take 20 docs)) in
    let* result :=
      qa_chain_invoke llm_model (qa_input user_question combined_text) in
    st_subheader answer_title >>
    st_write [VStr result]
  else ret tt.

Definition csv_document (llm_model : ChatModel) (user_question : str)
  : M unit :=
  st_info (bar_chart ::
           py " Upload a CSV file. Each row will be read as a document.") >>
  let* csv_file := st_file_uploader (py "Upload CSV file") [py "csv"] in
  match csv_file with
  | Some f =>
      let* temp_path := save_uploaded_file f (py ".csv") in
      let* content := read_file temp_path in
      let* docs := library (CSVLoader_lazy_load lib temp_path content) in
      csv_document_loaded llm_model user_question docs
  | None => ret tt
  end.

(** *** PDF document *)

Definition pdf_document_loaded (llm_model : ChatModel)
    (user_question : str) (docs : list Document) : M unit :=
  (if truthy user_question && truthy docs then
     let* d := first docs in
     let* result :=
       qa_chain_invoke llm_model
         (qa_input user_question (take 2000 (page_content d))) in
     st_subheader answer_title >>
     st_write [VStr result]
   else ret tt) >>
  let* pressed := st_button (py "Show PDF Content") in
  if pressed then
    st_subheader (closed_book :: py " PDF Content") >>
    let* d := first docs in
    st_write [VStr (page_content d)]
  else ret tt.

Definition pdf_document (llm_model : ChatModel) (user_question : str)
  : M unit :=
  st_info (closed_book ::
           py " Upload a PDF file. Each page will be read as a separate document.") >>
  let* pdf_file := st_file_uploader (py "Upload PDF file") [py "pdf"] in
  match pdf_file with
  | Some f =>
      let* temp_path := save_uploaded_file f (py ".pdf") in
      let* content := read_file temp_path in
      let* docs := library (PyPDFLoader_load lib temp_path content) in
      pdf_document_loaded llm_model user_question docs
  | None => ret tt
  end.

(** *** The whole page *)

(** The branch of the [if]/[elif] chain taken for each document type. *)
Definition document_branch (document_type : DocType)
  : ChatModel -> list N -> M unit :=
  match document_type with
  | TextDocument => text_document
  | WebBaseDocument => webbase_document
  | CSVDocument => csv_document
  | PDFDocument => pdf_document
  end.

(** The same, once the documents are loaded. *)
Definition document_loaded (document_type : DocType)
  : ChatModel -> list N -> list Document -> M unit :=
  match document_type with
  | TextDocument => text_document_loaded
  | WebBaseDocument => webbase_document_loaded
  | CSVDocument => csv_document_loaded
  | PDFDocument => pdf_document_loaded
  end.

(** [llm_model = init_chat_model(...)] *)
Definition llm_setup : M ChatModel :=
  init_chat_model (py "gemini-2.0-flash") (py "google-genai").

Definition main : M unit :=
  load_dotenv >>
  st_set_page_config (py "Document QA Chatbot") (py "wide") >>
  st_title (page_facing_up :: py " Loader Document QA Chatbot") >>
  st_markdown
    (py "Upload a document or provide a URL, ask your questions, " ++
     py "and get structured answers using Google Gemini LLM!") >>
  st_sidebar_header (py "Select Document Type") >>
  let* document_type := st_selectbox (py "Document Type") options in
  st_sidebar_markdown (py "---") >>
  let* llm_model := llm_setup in
  let* user_question :=
    st_text_input
      (speech_balloon :: py " Ask a question about the uploaded document:")
      (user_question ses) in
  if str_eqb document_type (py "Text Document") then
    text_document llm_model user_question
  else if str_eqb document_type (py "WebBase Document") then
    webbase_document llm_model user_question
  else if str_eqb document_type (py "CSV Document") then
    csv_document llm_model user_question
  else if str_eqb document_type (py "PDF Document") then
    pdf_document llm_model user_question
  else ret tt.

End Script.

(** ** Reading a trace *)

Definition prompt_input (e : Event) : option (dict str) :=
  match e with PromptInvoke d => Some d | _ => None end.
Definition model_call (e : Event) : option str :=
  match e with ModelInvoke _ p => Some p | _ => None end.
Definition model_built (e : Event) : option ChatModel :=
  match e with ModelInit m => Some m | _ => None end.
Definition written_text (e : Event) : option str :=
  match e with Main (Written [VStr s]) => Some s | _ => None end.

(** The inputs with which the prompt template was invoked. *)
Definition prompt_inputs (tr : list Event) : list (dict str) :=
  omap prompt_input tr.

(** The excerpts handed to the prompt template as [text]. *)
Definition excerpts (tr : list Event) : list str :=
  omap (fun d => dict_get d (py "text")) (prompt_inputs tr).

(** The prompts sent to the chat model. *)
Definition model_calls (tr : list Event) : list str := omap model_call tr.

(** The chat models that were built. *)
Definition models_built (tr : list Event) : list ChatModel :=
  omap model_built tr.

(** The texts shown by [st.write(text)]. *)
Definition written_texts (tr : list Event) : list str := omap written_text tr.

(** What every run displays and builds before it reaches the branch of
    the selected document type. *)
Definition startup_events (m : ChatModel) : list Event :=
  [SetPageConfig (py "Document QA Chatbot") (py "wide");
   Main (Title (page_facing_up :: py " Loader Document QA Chatbot"));
   Main (Markdown
           (py "Upload a document or provide a URL, ask your questions, and get structured answers using Google Gemini LLM!"));
   Sidebar (Header (py "Select Document Type"));
   Sidebar (Markdown (py "---"));
   ModelInit m].

(** A computation that adds nothing an observer [sel] of the trace sees. *)
Definition silent {X A} (sel : Event -> option X) (m : M A) : Prop :=
  forall w, omap sel (trace (snd (m w))) = omap sel (trace w).

(** The prompt the template produces from a question and an excerpt. *)
Definition prompt_of (question text : str) : str :=
  prompt_head ++ question ++ prompt_middle ++ text ++ prompt_tail.

(** The world after some more events. *)
Definition extend (evs : list Event) (w : World) : World :=
  {| environ := environ w; fs := fs w; tmp_draws := tmp_draws w;
     trace := trace w ++ evs |}.

(** What the row loop displays, entered with counter [i]. *)
Fixpoint row_blocks (i : nat) (docs : list Document) : list Event :=
  match docs with
  | [] => []
  | doc :: rest =>
      Main (Subheader (py "Row " ++ str_of_nat (i + 1))) ::
      Main (Written [VStr (page_content doc)]) ::
      Main (Written [VStr (py "Metadata:"); VDict (metadata doc)]) ::
      row_blocks (S i) rest
  end.

(** The label of the show-content button of each branch. *)
Definition show_button (t : DocType) : str :=
  match t with
  | TextDocument => py "Show Full Text Content"
  | WebBaseDocument => py "Show Page Content"
  | CSVDocument => py "Show CSV Content"
  | PDFDocument => py "Show PDF Content"
  end.

(** The suffix under which the uploaded file of a branch is saved. *)
Definition suffix_of (t : DocType) : str :=
  match t with
  | TextDocument => py ".txt"
  | CSVDocument => py ".csv"
  | PDFDocument => py ".pdf"
  | WebBaseDocument => []
  end.

(** The loader of a branch, on the saved file or on the URL. *)
Definition load_documents (lib : Extern) (t : DocType) (source : str)
    (content : bytes) : str + list Document :=
  match t with
  | TextDocument => TextLoader_load lib source content
  | WebBaseDocument => WebBaseLoader_load lib source
  | CSVDocument => CSVLoader_lazy_load lib source content
  | PDFDocument => PyPDFLoader_load lib source content
  end.

(** A world before the run: nothing traced yet. *)
Definition initial_world (env : gmap (list N) (list N))
    (files : gmap (list N) (list Byte.byte)) : World :=
  {| environ := env; fs := files; tmp_draws := 0; trace := [] |}.

(** ** Sample inputs

    Concrete libraries and sessions on which the script is run below: the
    loaders return the given documents, the model is built whatever the
    environment holds (its credentials are found outside it) and always
    answers. *)

Definition sample_lib (docs : list Document) : Extern :=
  {| dotenv_file := [];
     TMP_MAX := 100;
     gettempdir := py "/tmp";
     candidate_name := str_of_nat;
     TextLoader_load := fun _ _ => inr docs;
     WebBaseLoader_load := fun _ => inr docs;
     CSVLoader_lazy_load := fun _ _ => inr docs;
     PyPDFLoader_load := fun _ _ => inr docs;
     chat_model_init := fun _ => inr tt;
     chat_completion := fun _ _ => inr (py "It launched in 2024.") |}.

Definition page (text : string) : Document :=
  {| page_content := py text; metadata := [] |}.

Definition row (n : Z) (text : string) : Document :=
  {| page_content := py text;
     metadata := [(py "source", SStr (py "data.csv")); (py "row", SInt n)] |}.

(** An upload for each branch: a line of notes, a CSV header with no row
    under it, the first bytes of a PDF. *)
Definition sample_upload (t : DocType) : list N * list Byte.byte :=
  match t with
  | CSVDocument => (py "data.csv", list_byte_of_string "a,b")
  | PDFDocument => (py "paper.pdf", list_byte_of_string "%PDF-1.4")
  | _ => (py "notes.txt", list_byte_of_string "Project X launched in 2024.")
  end.

Definition sample_session (t : DocType) (question : str)
    (button : option str) : Session :=
  {| document_type := t;
     user_question := question;
     url := py "https://example.com";
     upload := Some (sample_upload t);
     clicked := button |}.

Definition sample_model : ChatModel :=
  {| model := py "gemini-2.0-flash"; model_provider := py "google-genai";
     api_key := None |}.

Definition empty_world : World := initial_world ∅ ∅.

(** ** Further observations on runs *)

(** The excerpt each branch hands to the chain, by document type. *)
Definition excerpt_of (t : DocType) (docs : list Document) : str :=
  match t with
  | CSVDocument => join [nl] (List.map page_content (take 20 docs))
  | _ =>
      match docs with
      | d :: _ => take 2000 (page_content d)
      | [] => []
      end
  end.

(** The model every run builds, given the .env file and the environment. *)
Definition built_model (lib : Extern) (w : World) : ChatModel :=
  {| model := py "gemini-2.0-flash";
     model_provider := py "google-genai";
     api_key := merge_dotenv (dotenv_file lib) (environ w)
                  !! py "GOOGLE_API_KEY" |}.

(** Template text without braces, and field names without a closing one. *)
Definition plain (s : str) : bool :=
  forallb (fun c => negb (N.eqb c lbrace) && negb (N.eqb c rbrace)) s.

Definition no_rbrace (s : str) : bool :=
  forallb (fun c => negb (N.eqb c rbrace)) s.

(** A computation that adds at most [n] calls of the model to the trace. *)
Definition calls_at_most (n : nat) {A} (m : M A) : Prop :=
  forall w, exists l,
    model_calls (trace (snd (m w))) = model_calls (trace w) ++ l /\
    (length l <= n)%nat.

(** A computation that leaves every existing file in place, unchanged. *)
Definition keeps_files {A} (m : M A) : Prop :=
  forall w p c, fs w !! p = Some c -> fs (snd (m w)) !! p = Some c.



(** Libraries that fail: the model API, the page fetch. *)
Definition failing_model_lib (docs : list Document) : Extern :=
  {| dotenv_file := [];
     TMP_MAX := 100;
     gettempdir := py "/tmp";
     candidate_name := str_of_nat;
     TextLoader_load := fun _ _ => inr docs;
     WebBaseLoader_load := fun _ => inr docs;
     CSVLoader_lazy_load := fun _ _ => inr docs;
     PyPDFLoader_load := fun _ _ => inr docs;
     chat_model_init := fun _ => inr tt;
     chat_completion := fun _ _ => inl (py "503 Service Unavailable") |}.

(** Libraries of a machine whose only Google credential is the key in the
    environment: the model is built only when GOOGLE_API_KEY is set.  The
    text loader returns the decoded file as one document that records
    its source. *)
Definition needs_key (m : ChatModel) : list N + unit :=
  match api_key m with
  | Some _ => inr tt
  | None => inl (py "DefaultCredentialsError")
  end.

Definition decode (content : bytes) : str :=
  List.map (fun b => N_of_ascii (ascii_of_byte b)) content.

Definition keyed_lib (docs : list Document) : Extern :=
  {| dotenv_file := [];
     TMP_MAX := 100;
     gettempdir := py "/tmp";
     candidate_name := str_of_nat;
     TextLoader_load := fun path content =>
       inr [{| page_content := decode content;
               metadata := [(py "source", SStr path)] |}];
     WebBaseLoader_load := fun _ => inr docs;
     CSVLoader_lazy_load := fun _ _ => inr docs;
     PyPDFLoader_load := fun _ _ => inr docs;
     chat_model_init := needs_key;
     chat_completion := fun _ _ => inr (py "It launched in 2024.") |}.

Definition unreachable_lib : Extern :=
  {| dotenv_file := [];
     TMP_MAX := 100;
     gettempdir := py "/tmp";
     candidate_name := str_of_nat;
     TextLoader_load := fun _ _ => inr [];
     WebBaseLoader_load := fun _ => inl (py "connection refused");
     CSVLoader_lazy_load := fun _ _ => inr [];
     PyPDFLoader_load := fun _ _ => inr [];
     chat_model_init := needs_key;
     chat_completion := fun _ _ => inr (py "It launched in 2024.") |}.

(** A world whose environment holds the key. *)
Definition keyed_world : World :=
  initial_world (<[py "GOOGLE_API_KEY" := py "key"]> ∅) ∅.

(** The heading under which each branch shows the content. *)
Definition content_heading (t : DocType) : str :=
  match t with
  | TextDocument => page_facing_up :: py " File Content"
  | WebBaseDocument => globe :: py " Webpage Content"
  | PDFDocument => closed_book :: py " PDF Content"
  | CSVDocument => []
  end.

(** A run in which the user has given nothing yet. *)
Definition idle_session (t : DocType) : Session :=
  {| document_type := t;
     user_question := [];
     url := [];
     upload := None;
     clicked := None |}.

(** A world that already holds a file. *)
Definition used_world : World :=
  initial_world ∅ (<[py "/tmp/tmp0.txt" := [Byte.x6f; Byte.x6c; Byte.x64]]> ∅).

(** * Properties *)

Arguments py : simpl never.
Arguments prompt_of : simpl never.
Arguments qa_input : simpl never.
Arguments template_format : simpl never.
Arguments answer_title : simpl never.
Arguments str_of_nat : simpl never.

(** ** Strings and the template *)

Lemma str_eqb_eq (a b : list N) : str_eqb a b = true <-> a = b.
Proof.
  revert b. induction a as [|x a IH]; intros [|y b]; simpl; try easy.
  rewrite andb_true_iff, N.eqb_eq, IH. split.
  - intros [-> ->]. reflexivity.
  - intros [= -> ->]. auto.
Qed.

Lemma str_eqb_refl (a : list N) : str_eqb a a = true.
Proof. apply str_eqb_eq. reflexivity. Qed.

Lemma template_format_qa_input (question text : list N) :
  template_format (qa_input question text) = Ok (prompt_of question text).
Proof. vm_compute. reflexivity. Qed.

Lemma text_of_qa_input (question text : list N) :
  dict_get (qa_input question text) (py "text") = Some text.
Proof. reflexivity. Qed.

(** C7: the Prompt Composer is a function of the question and the excerpt
    alone, and its prompt is the fixed template text with the two strings
    inserted unchanged: head, question, middle, excerpt, tail.  Invoked in
    a run, it returns that prompt and leaves the world as it was, but for
    the record of the call in the trace. *)
Theorem compose_prompt_embeds (question text : list N) :
  compose_prompt question text =
    Ok (prompt_head ++ question ++ prompt_middle ++ text ++ prompt_tail) /\
  forall w,
    template_invoke (qa_input question text) w =
    (Ok (prompt_head ++ question ++ prompt_middle ++ text ++ prompt_tail),
     log (PromptInvoke (qa_input question text)) w).
Proof.
  split; [apply template_format_qa_input|].
  intros w. unfold template_invoke, bind, emit, modify, lift.
  rewrite template_format_qa_input. reflexivity.
Qed.

(** The scenario of the notes file: one prompt holding the question and
    the text reaches the model, and the answer is what is written. *)
Example notes_scenario :
  let notes := page "Project X launched in 2024." in
  let question := py "When did Project X launch?" in
  let w' := snd (main (sample_lib [notes])
                   (sample_session TextDocument question None)
                   empty_world) in
  model_calls (trace w') =
    [prompt_head ++ question ++ prompt_middle ++
     py "Project X launched in 2024." ++ prompt_tail] /\
  written_texts (trace w') = [py "It launched in 2024."].
Proof. split; vm_compute; reflexivity. Qed.

(** ** Running the chain and reading traces *)

Lemma qa_chain_invoke_run lib m q t w :
  qa_chain_invoke lib m (qa_input q t) w =
  (match chat_completion lib m (prompt_of q t) with
   | inl msg => Raise (LibraryError msg)
   | inr a => Ok a
   end,
   log (ModelInvoke m (prompt_of q t)) (log (PromptInvoke (qa_input q t)) w)).
Proof.
  unfold qa_chain_invoke, template_invoke, llm_invoke, parser_invoke,
    bind, emit, modify, lift, library.
  rewrite template_format_qa_input.
  destruct (chat_completion lib m (prompt_of q t)); reflexivity.
Qed.

Lemma st_button_run ses label w :
  st_button ses label w = (Ok (pressed ses label), w).
Proof. reflexivity. Qed.

Lemma pressed_clicked ses label :
  clicked ses = Some label -> pressed ses label = true.
Proof. unfold pressed. intros ->. apply str_eqb_refl. Qed.

Lemma trace_log e w : trace (log e w) = trace w ++ [e].
Proof. reflexivity. Qed.

Lemma trace_extend evs w : trace (extend evs w) = trace w ++ evs.
Proof. reflexivity. Qed.

Lemma prompt_inputs_app tr1 tr2 :
  prompt_inputs (tr1 ++ tr2) = prompt_inputs tr1 ++ prompt_inputs tr2.
Proof. apply omap_app. Qed.

Lemma excerpts_app tr1 tr2 :
  excerpts (tr1 ++ tr2) = excerpts tr1 ++ excerpts tr2.
Proof. unfold excerpts. rewrite prompt_inputs_app. apply omap_app. Qed.

Lemma model_calls_app tr1 tr2 :
  model_calls (tr1 ++ tr2) = model_calls tr1 ++ model_calls tr2.
Proof. apply omap_app. Qed.

Lemma written_texts_app tr1 tr2 :
  written_texts (tr1 ++ tr2) = written_texts tr1 ++ written_texts tr2.
Proof. apply omap_app. Qed.

Ltac unfold_script :=
  unfold text_document_loaded, webbase_document_loaded, csv_document_loaded,
    pdf_document_loaded.

(** One step of the script on a world. *)
Ltac run :=
  repeat first
    [ rewrite qa_chain_invoke_run
    | rewrite st_button_run
    | progress cbn [bind ret raise first emit modify st_subheader st_write
                    fst snd trace log andb truthy] ].

(** Split on the answer of the model and on the buttons. *)
Ltac branches lib :=
  repeat match goal with
         | |- context [chat_completion lib ?m ?p] =>
             destruct (chat_completion lib m p)
         | |- context [pressed ?s ?l] => destruct (pressed s l)
         end.

Ltac go lib := repeat first [ progress run | progress branches lib ].

Ltac read_trace :=
  rewrite ?trace_extend, ?trace_log, ?prompt_inputs_app, ?excerpts_app,
    ?model_calls_app, ?written_texts_app;
  cbn [prompt_inputs excerpts model_calls written_texts omap list_omap
       prompt_input model_call model_built written_text];
  rewrite ?text_of_qa_input;
  rewrite ?app_nil_r, <- ?app_assoc.

Lemma show_rows_run i docs w :
  show_rows i docs w = (Ok tt, extend (row_blocks i docs) w).
Proof.
  revert i w. induction docs as [|doc rest IH]; intros i w.
  - destruct w. cbn. unfold extend. cbn. rewrite app_nil_r. reflexivity.
  - cbn [show_rows row_blocks]. unfold bind at 1 2 3. cbn.
    rewrite IH. f_equal. unfold extend, log. cbn.
    rewrite <- !app_assoc. reflexivity.
Qed.

Lemma written_texts_row_blocks i docs :
  written_texts (row_blocks i docs) = List.map page_content docs.
Proof.
  revert i. induction docs as [|doc rest IH]; intros i; [reflexivity|].
  cbn [row_blocks List.map]. rewrite <- (IH (S i)). reflexivity.
Qed.

Lemma model_calls_row_blocks i docs : model_calls (row_blocks i docs) = [].
Proof.
  revert i. induction docs as [|doc rest IH]; intros i; [reflexivity|].
  cbn [row_blocks]. apply (IH (S i)).
Qed.

Lemma prompt_inputs_row_blocks i docs : prompt_inputs (row_blocks i docs) = [].
Proof.
  revert i. induction docs as [|doc rest IH]; intros i; [reflexivity|].
  cbn [row_blocks]. apply (IH (S i)).
Qed.

Ltac read_rows :=
  rewrite ?prompt_inputs_row_blocks, ?model_calls_row_blocks,
    ?written_texts_row_blocks;
  cbn [app].

(** ** Excerpts *)

(** C3: with a question, a text document whose content is longer than
    2000 characters reaches the prompt template cut to its first 2000
    characters: the excerpt has length 2000 and is that prefix. *)
Theorem text_excerpt_first_2000 (lib : Extern) (ses : Session)
    (m : ChatModel) (q : list N) (d : Document) (docs : list Document)
    (w : World) :
  truthy q = true ->
  (2000 < length (page_content d))%nat ->
  let w' := snd (text_document_loaded lib ses m q (d :: docs) w) in
  exists excerpt,
    prompt_inputs (trace w') =
      prompt_inputs (trace w) ++ [qa_input q excerpt] /\
    length excerpt = 2000%nat /\
    excerpt ++ drop 2000 (page_content d) = page_content d.
Proof.
  intros Hq Hlen w'. exists (take 2000 (page_content d)).
  split; [|split; [rewrite length_take; lia | apply take_drop]].
  subst w'. unfold text_document_loaded. rewrite Hq. unfold bind. run.
  go lib; read_trace; reflexivity.
Qed.

Lemma text_excerpt_first_2000_witness :
  let d := {| page_content := replicate 2001 97; metadata := [] |} in
  let w' := snd (text_document_loaded (sample_lib [d])
                   (sample_session TextDocument (py "Why?") None)
                   sample_model (py "Why?") [d] empty_world) in
  exists excerpt,
    prompt_inputs (trace w') =
      prompt_inputs (trace empty_world) ++ [qa_input (py "Why?") excerpt] /\
    length excerpt = 2000%nat /\
    excerpt ++ drop 2000 (page_content d) = page_content d.
Proof.
  intros d.
  apply (text_excerpt_first_2000 (sample_lib [d])
           (sample_session TextDocument (py "Why?") None) sample_model
           (py "Why?") d [] empty_world).
  - reflexivity.
  - apply Nat.ltb_lt. vm_compute. reflexivity.
Defined.

(** Joining with newlines, said without [join]: the first text, then for
    each further text a newline and that text. *)
Lemma join_newline (c : list N) (cs : list (list N)) :
  join [nl] (c :: cs) = c ++ concat (List.map (cons nl) cs).
Proof.
  revert c. induction cs as [|c' cs IH]; intros c.
  - cbn. symmetry. apply app_nil_r.
  - change (join [nl] (c :: c' :: cs))
      with (c ++ [nl] ++ join [nl] (c' :: cs)).
    rewrite IH. reflexivity.
Qed.

(** C4: a CSV whose rows are a first row, 19 more rows and then any
    further rows reaches generation as the content of the first row
    followed, for each of the next 19 rows in row order, by a newline and
    the content of that row; whatever the rows after the twentieth are,
    they do not appear in the excerpt or in the prompt. *)
Theorem csv_excerpt_first_20_rows (lib : Extern) (ses : Session)
    (m : ChatModel) (q : list N) (r1 : Document)
    (next19 rest : list Document) (w : World) :
  truthy q = true ->
  length next19 = 19%nat ->
  let w' := snd (csv_document_loaded lib ses m q (r1 :: next19 ++ rest) w) in
  let excerpt :=
    page_content r1 ++
    concat (List.map (fun r => nl :: page_content r) next19) in
  prompt_inputs (trace w') =
    prompt_inputs (trace w) ++ [qa_input q excerpt] /\
  model_calls (trace w') = model_calls (trace w) ++ [prompt_of q excerpt].
Proof.
  intros Hq Hlen w' excerpt. subst w' excerpt. unfold csv_document_loaded.
  change (r1 :: next19 ++ rest) with ((r1 :: next19) ++ rest).
  rewrite Hq, take_app_length' by (cbn; rewrite Hlen; reflexivity).
  cbn [List.map]. rewrite join_newline, map_map.
  unfold bind. go lib; rewrite ?show_rows_run; go lib; read_trace;
    read_rows; split; reflexivity.
Qed.

Lemma csv_excerpt_first_20_rows_witness :
  let r1 := page "r1" in
  let next19 := [page "r2"; page "r3"; page "r4"; page "r5"; page "r6"; page "r7";
                 page "r8"; page "r9"; page "r10"; page "r11"; page "r12"; page "r13";
                 page "r14"; page "r15"; page "r16"; page "r17"; page "r18"; page "r19"; page "r20"] in
  let rest := [page "r21"; page "r22"] in
  let w' := snd (csv_document_loaded (sample_lib (r1 :: next19 ++ rest))
                   (sample_session CSVDocument (py "Why?") None)
                   sample_model (py "Why?") (r1 :: next19 ++ rest)
                   empty_world) in
  let excerpt :=
    py "r1" ++ nl ::
     py "r2" ++ nl ::
     py "r3" ++ nl ::
     py "r4" ++ nl ::
     py "r5" ++ nl ::
     py "r6" ++ nl ::
     py "r7" ++ nl ::
     py "r8" ++ nl ::
     py "r9" ++ nl ::
     py "r10" ++ nl ::
     py "r11" ++ nl ::
     py "r12" ++ nl ::
     py "r13" ++ nl ::
     py "r14" ++ nl ::
     py "r15" ++ nl ::
     py "r16" ++ nl ::
     py "r17" ++ nl ::
     py "r18" ++ nl ::
     py "r19" ++ nl ::
     py "r20" in
  prompt_inputs (trace w') =
    prompt_inputs (trace empty_world) ++ [qa_input (py "Why?") excerpt] /\
  model_calls (trace w') =
    model_calls (trace empty_world) ++ [prompt_of (py "Why?") excerpt].
Proof.
  intros r1 next19 rest.
  exact (csv_excerpt_first_20_rows (sample_lib (r1 :: next19 ++ rest))
           (sample_session CSVDocument (py "Why?") None) sample_model
           (py "Why?") r1 next19 rest empty_world eq_refl eq_refl).
Defined.


(** The CSV branch sends the first 20 rows, joined by newlines. *)
Lemma csv_excerpt_run (lib : Extern) (ses : Session) (m : ChatModel)
    (q : list N) (docs : list Document) (w : World) :
  truthy q = true ->
  let w' := snd (csv_document_loaded lib ses m q docs w) in
  excerpts (trace w') =
    excerpts (trace w) ++
    [join [nl] (List.map page_content (take 20 docs))].
Proof.
  intros Hq w'. subst w'. unfold csv_document_loaded. rewrite Hq.
  unfold bind. go lib; rewrite ?show_rows_run; go lib; read_trace.
  all: unfold excerpts; read_rows; reflexivity.
Qed.




(** ** Showing the content *)

Lemma row_blocks_length i docs :
  length (row_blocks i docs) = (3 * length docs)%nat.
Proof.
  revert i. induction docs as [|d rest IH]; intros i; [reflexivity|].
  cbn [row_blocks length]. rewrite IH. lia.
Qed.

Lemma row_blocks_lookup k docs i d :
  docs !! i = Some d ->
  row_blocks k docs !! (3 * i)%nat =
    Some (Main (Subheader (py "Row " ++ str_of_nat (k + i + 1)))) /\
  row_blocks k docs !! (3 * i + 1)%nat =
    Some (Main (Written [VStr (page_content d)])) /\
  row_blocks k docs !! (3 * i + 2)%nat =
    Some (Main (Written [VStr (py "Metadata:"); VDict (metadata d)])).
Proof.
  revert k i. induction docs as [|d0 rest IH]; intros k i Hi; [discriminate|].
  destruct i as [|i].
  - injection Hi as ->. cbn [row_blocks]. rewrite Nat.add_0_r. auto.
  - cbn [lookup list_lookup] in Hi.
    destruct (IH (S k) i Hi) as (H1 & H2 & H3).
    replace (3 * S i)%nat with (S (S (S (3 * i)))) by lia.
    cbn [row_blocks]. cbn [Nat.add lookup list_lookup].
    replace (k + S i + 1)%nat with (S k + i + 1)%nat by lia. auto.
Qed.


(** C6, as the script has it: with no question and the show-content button
    of the branch clicked, a loaded document with at least one segment is
    displayed without calling the model.  The Text, WebBase and PDF
    branches display the heading of the branch and then write the whole
    text of the first segment, and nothing else.  The CSV branch displays
    three elements per row and nothing else: for the row at index i, the
    heading "Row i+1", the content of the row, and its metadata, in row
    order. *)
Theorem show_content_renders (lib : Extern) (ses : Session) (m : ChatModel)
    (t : DocType) (d : Document) (rest : list Document) (w : World) :
  clicked ses = Some (show_button t) ->
  let r := document_loaded lib ses t m [] (d :: rest) w in
  fst r = Ok tt /\
  written_texts (trace (snd r)) =
    written_texts (trace w) ++
    match t with
    | CSVDocument => List.map page_content (d :: rest)
    | _ => [page_content d]
    end /\
  model_calls (trace (snd r)) = model_calls (trace w) /\
  match t with
  | CSVDocument =>
      exists shown,
        snd r = extend shown w /\
        length shown = (3 * length (d :: rest))%nat /\
        forall i row, (d :: rest) !! i = Some row ->
          shown !! (3 * i)%nat =
            Some (Main (Subheader (py "Row " ++ str_of_nat (i + 1)))) /\
          shown !! (3 * i + 1)%nat =
            Some (Main (Written [VStr (page_content row)])) /\
          shown !! (3 * i + 2)%nat =
            Some (Main (Written [VStr (py "Metadata:");
                                 VDict (metadata row)]))
  | _ =>
      snd r =
      extend [Main (Subheader (content_heading t));
              Main (Written [VStr (page_content d)])] w
  end.
Proof.
  intros Hc r. subst r. apply pressed_clicked in Hc.
  destruct t; cbn [show_button] in Hc;
    cbn [document_loaded content_heading]; unfold_script; unfold bind; run;
    rewrite Hc; run; rewrite ?show_rows_run; run;
    (split; [reflexivity|]);
    (split; [read_trace; read_rows; rewrite ?app_nil_r; reflexivity|]);
    (split; [read_trace; read_rows; rewrite ?app_nil_r; reflexivity|]).
  - unfold extend, log. cbn. rewrite <- app_assoc. reflexivity.
  - unfold extend, log. cbn. rewrite <- app_assoc. reflexivity.
  - exists (row_blocks 0 (d :: rest)).
    split; [reflexivity|]. split; [apply row_blocks_length|].
    intros i row Hi. apply (row_blocks_lookup 0 (d :: rest) i row Hi).
  - unfold extend, log. cbn. rewrite <- app_assoc. reflexivity.
Qed.

Lemma show_content_renders_witness :
  let d := page "first page" in
  let rest := [page "second page"] in
  let ses := sample_session PDFDocument [] (Some (py "Show PDF Content")) in
  let r := document_loaded (sample_lib (d :: rest)) ses PDFDocument
             sample_model [] (d :: rest) empty_world in
  fst r = Ok tt /\
  written_texts (trace (snd r)) =
    written_texts (trace empty_world) ++ [page_content d] /\
  model_calls (trace (snd r)) = model_calls (trace empty_world) /\
  snd r =
    extend [Main (Subheader (closed_book :: py " PDF Content"));
            Main (Written [VStr (py "first page")])] empty_world.
Proof.
  intros d rest ses.
  apply (show_content_renders (sample_lib (d :: rest)) ses sample_model
           PDFDocument d rest empty_world).
  reflexivity.
Defined.

(** C6 as stated fails on a PDF: with no question and "Show PDF Content"
    clicked, a two-page PDF is displayed as its first page alone, which is
    not the whole extracted text. *)
Lemma show_pdf_drops_later_pages :
  let pages := [page "first page"; page "second page"] in
  let w' := snd (main (sample_lib pages)
                   (sample_session PDFDocument []
                      (Some (py "Show PDF Content")))
                   empty_world) in
  written_texts (trace w') = [py "first page"] /\
  concat (written_texts (trace w')) <> concat (List.map page_content pages).
Proof.
  intros pages w'. split; [vm_compute; reflexivity|].
  vm_compute. discriminate.
Qed.

(** C8: a CSV of exactly three rows, no question, "Show CSV Content"
    clicked: the run displays three blocks in row order, each a "Row i"
    heading, the content of the row and its metadata, displays nothing
    else, and never calls the model. *)
Theorem show_csv_three_rows (lib : Extern) (ses : Session) (m : ChatModel)
    (d1 d2 d3 : Document) (w : World) :
  clicked ses = Some (py "Show CSV Content") ->
  let r := csv_document_loaded lib ses m [] [d1; d2; d3] w in
  r = (Ok tt,
       extend
         [Main (Subheader (py "Row 1"));
          Main (Written [VStr (page_content d1)]);
          Main (Written [VStr (py "Metadata:"); VDict (metadata d1)]);
          Main (Subheader (py "Row 2"));
          Main (Written [VStr (page_content d2)]);
          Main (Written [VStr (py "Metadata:"); VDict (metadata d2)]);
          Main (Subheader (py "Row 3"));
          Main (Written [VStr (page_content d3)]);
          Main (Written [VStr (py "Metadata:"); VDict (metadata d3)])]
         w) /\
  model_calls (trace (snd r)) = model_calls (trace w).
Proof.
  intros Hc r. subst r. apply pressed_clicked in Hc.
  unfold csv_document_loaded, bind. run. rewrite Hc, show_rows_run. run.
  split; [reflexivity|]. read_trace. reflexivity.
Qed.

Lemma show_csv_three_rows_witness :
  let d1 := row 0 "x: 1" in
  let d2 := row 1 "x: 2" in
  let d3 := row 2 "x: 3" in
  let ses := sample_session CSVDocument [] (Some (py "Show CSV Content")) in
  let r := csv_document_loaded (sample_lib [d1; d2; d3]) ses sample_model []
             [d1; d2; d3] empty_world in
  r = (Ok tt,
       extend
         [Main (Subheader (py "Row 1"));
          Main (Written [VStr (page_content d1)]);
          Main (Written [VStr (py "Metadata:"); VDict (metadata d1)]);
          Main (Subheader (py "Row 2"));
          Main (Written [VStr (page_content d2)]);
          Main (Written [VStr (py "Metadata:"); VDict (metadata d2)]);
          Main (Subheader (py "Row 3"));
          Main (Written [VStr (page_content d3)]);
          Main (Written [VStr (py "Metadata:"); VDict (metadata d3)])]
         empty_world) /\
  model_calls (trace (snd r)) = model_calls (trace empty_world).
Proof.
  intros d1 d2 d3 ses.
  apply (show_csv_three_rows (sample_lib [d1; d2; d3]) ses sample_model
           d1 d2 d3 empty_world).
  reflexivity.
Defined.

(** ** No segments *)

(** C9: in the WebBase branch with a question, the run ends in
    IndexError exactly when the loader returned no segment; in that case
    nothing has happened before the error, so the model was not called. *)
Theorem webbase_index_error_iff_no_segments (lib : Extern) (ses : Session)
    (m : ChatModel) (q : list N) (docs : list Document) (w : World) :
  truthy q = true ->
  let r := webbase_document_loaded lib ses m q docs w in
  (fst r = Raise IndexError <-> docs = []) /\
  (docs = [] -> snd r = w).
Proof.
  intros Hq r. subst r. unfold webbase_document_loaded. rewrite Hq.
  destruct docs as [|d rest].
  - split; [split|]; reflexivity.
  - split; [|discriminate]. split; [|discriminate].
    unfold bind. go lib; discriminate.
Qed.

Lemma webbase_index_error_iff_no_segments_witness :
  let r := webbase_document_loaded (sample_lib [])
             (sample_session WebBaseDocument (py "Why?") None)
             sample_model (py "Why?") [] empty_world in
  (fst r = Raise IndexError <-> @nil Document = []) /\
  (@nil Document = [] -> snd r = empty_world).
Proof.
  apply (webbase_index_error_iff_no_segments (sample_lib [])
           (sample_session WebBaseDocument (py "Why?") None)
           sample_model (py "Why?") [] empty_world).
  reflexivity.
Defined.

(** The guarded branches: with no segment the Text and PDF branches skip
    the question. *)
Lemma guarded_branches_skip (lib : Extern) (ses : Session) (m : ChatModel)
    (q : list N) (w : World) :
  clicked ses = None ->
  text_document_loaded lib ses m q [] w = (Ok tt, w) /\
  pdf_document_loaded lib ses m q [] w = (Ok tt, w).
Proof.
  intros Hc.
  unfold text_document_loaded, pdf_document_loaded, bind, st_button, pressed.
  rewrite Hc. destruct q; split; reflexivity.
Qed.

(** The CSV branch has no such guard: with a question and no row it
    invokes the chain on the empty excerpt. *)
Lemma csv_no_rows_invokes_model (lib : Extern) (ses : Session)
    (m : ChatModel) (q : list N) (w : World) :
  truthy q = true ->
  let w' := snd (csv_document_loaded lib ses m q [] w) in
  model_calls (trace w') = model_calls (trace w) ++ [prompt_of q []].
Proof.
  intros Hq w'. subst w'. unfold csv_document_loaded. rewrite Hq.
  unfold bind. go lib; rewrite ?show_rows_run; go lib; read_trace;
    reflexivity.
Qed.

(** C1 fails on the CSV branch: a CSV file with a header line and no row
    is loaded into zero segments, and with a question the run still sends
    a prompt, built on the empty excerpt, to the model. *)
Theorem csv_without_rows_calls_model :
  let w' := snd (main (sample_lib [])
                   (sample_session CSVDocument (py "Why?") None)
                   empty_world) in
  excerpts (trace w') = [[]] /\
  model_calls (trace w') = [prompt_of (py "Why?") []].
Proof. split; vm_compute; reflexivity. Qed.

(** ** The model *)

Lemma llm_setup_run (lib : Extern) (w : World) :
  let m := {| model := py "gemini-2.0-flash";
              model_provider := py "google-genai";
              api_key := environ w !! py "GOOGLE_API_KEY" |} in
  llm_setup lib w =
  (match chat_model_init lib m with
   | inl msg => Raise (LibraryError msg)
   | inr _ => Ok m
   end,
   log (ModelInit m) w).
Proof.
  cbv zeta. unfold llm_setup, init_chat_model, bind, get, emit, modify, ret.
  cbn. destruct (chat_model_init lib _) as [msg|[]]; reflexivity.
Qed.

(** C5 as stated fails: with MODEL_NAME and MODEL_PROVIDER set in the
    environment, the one model the run builds still has the constants of
    the script, not the configured values. *)
Lemma model_ignores_environment :
  let env : gmap (list N) (list N) :=
    <[py "MODEL_NAME" := py "gpt-4o"]>
      (<[py "MODEL_PROVIDER" := py "openai"]> ∅) in
  let w' := snd (main (sample_lib [])
                   (sample_session TextDocument [] None)
                   (initial_world env ∅)) in
  env !! py "MODEL_NAME" = Some (py "gpt-4o") /\
  env !! py "MODEL_PROVIDER" = Some (py "openai") /\
  models_built (trace w') = [sample_model] /\
  ~ (forall m, In m (models_built (trace w')) ->
       model m = py "gpt-4o" /\ model_provider m = py "openai").
Proof.
  intros env w'.
  assert (E : models_built (trace w') = [sample_model])
    by (vm_compute; reflexivity).
  split; [vm_compute; reflexivity|].
  split; [vm_compute; reflexivity|].
  split; [exact E|].
  intros H. destruct (H sample_model) as [Hm _].
  - rewrite E. left. reflexivity.
  - vm_compute in Hm. discriminate.
Qed.

(** ** Saving the upload *)

(** The name search takes the first candidate that does not exist, and
    finds one when some candidate within the allowed draws is unused. *)
Lemma mkstemp_inner_finds (lib : Extern) (suffix : list N)
    (files : gmap (list N) (list Byte.byte)) (tries seq i : nat) :
  (i < tries)%nat ->
  files !! tmp_path lib (seq + i) suffix = None ->
  exists j,
    mkstemp_inner lib tries seq suffix files =
      Some (S (seq + j), tmp_path lib (seq + j) suffix) /\
    files !! tmp_path lib (seq + j) suffix = None.
Proof.
  revert seq i. induction tries as [|n IH]; intros seq i Hi Hfree; [lia|].
  cbn [mkstemp_inner].
  destruct (files !! tmp_path lib seq suffix) eqn:Hseq.
  - destruct i as [|i].
    + rewrite Nat.add_0_r in Hfree. congruence.
    + destruct (IH (S seq) i) as (j & Hj & Hnone); [lia| |].
      * rewrite <- Hfree. f_equal. f_equal. lia.
      * exists (S j). replace (seq + S j)%nat with (S seq + j)%nat by lia.
        split; assumption.
  - exists 0%nat. rewrite Nat.add_0_r. split; [reflexivity | assumption].
Qed.

(** The run of [save_uploaded_file] when a name is found: the file is
    created under the first unused candidate and holds what was read. *)
Lemma save_uploaded_file_run (lib : Extern) (f : UploadedFile)
    (suffix : list N) (w : World) (i : nat) :
  (i < TMP_MAX lib)%nat ->
  fs w !! tmp_path lib (tmp_draws w + i) suffix = None ->
  exists j,
    fs w !! tmp_path lib (tmp_draws w + j) suffix = None /\
    save_uploaded_file lib f suffix w =
      (Ok (tmp_path lib (tmp_draws w + j) suffix),
       set_tmp_draws (S (tmp_draws w + j))
         (set_fs (<[tmp_path lib (tmp_draws w + j) suffix :=
                      UploadedFile_read f]> (fs w)) w)).
Proof.
  intros Hi Hfree.
  destruct (mkstemp_inner_finds lib suffix (fs w) (TMP_MAX lib)
              (tmp_draws w) i Hi Hfree) as (j & Hfind & Hnone).
  exists j. split; [exact Hnone|].
  unfold save_uploaded_file, with_file, NamedTemporaryFile, file_write,
    file_close, bind, get, modify, ret.
  rewrite Hfind. cbn. rewrite lookup_insert_eq. cbn.
  rewrite insert_insert_eq. reflexivity.
Qed.

(** C10: given an upload read from its start and an unused candidate name
    within the allowed draws, [save_uploaded_file] returns the path of a
    file that did not exist before, whose name ends with the suffix and
    whose content afterwards is exactly the uploaded bytes; the file is
    still there when the function has returned, and nothing else in the
    file system has changed. *)
Theorem save_uploaded_file_writes_all (lib : Extern) (f : UploadedFile)
    (suffix : list N) (w : World) (i : nat) :
  position f = 0%nat ->
  (i < TMP_MAX lib)%nat ->
  fs w !! tmp_path lib (tmp_draws w + i) suffix = None ->
  exists path w',
    save_uploaded_file lib f suffix w = (Ok path, w') /\
    (exists stem, path = stem ++ suffix) /\
    fs w !! path = None /\
    fs w' !! path = Some (getvalue f) /\
    fs w' = <[path := getvalue f]> (fs w) /\
    trace w' = trace w.
Proof.
  intros Hpos Hi Hfree.
  destruct (save_uploaded_file_run lib f suffix w i Hi Hfree)
    as (j & Hnone & Hrun).
  assert (Hread : UploadedFile_read f = getvalue f)
    by (unfold UploadedFile_read; rewrite Hpos; reflexivity).
  rewrite Hread in Hrun.
  eexists _, _. split; [exact Hrun|]. cbn.
  split; [|split; [exact Hnone | split; [apply lookup_insert_eq | auto]]].
  exists (gettempdir lib ++ py "/" ++ py "tmp" ++
          candidate_name lib (tmp_draws w + j)).
  unfold tmp_path. rewrite <- !app_assoc. reflexivity.
Qed.

Lemma save_uploaded_file_writes_all_witness :
  let f := {| file_name := py "notes.txt";
              getvalue := [Byte.x50; Byte.x72; Byte.x6f; Byte.x6a];
              position := 0 |} in
  exists path w',
    save_uploaded_file (sample_lib []) f (py ".txt") empty_world =
      (Ok path, w') /\
    (exists stem, path = stem ++ py ".txt") /\
    fs empty_world !! path = None /\
    fs w' !! path = Some (getvalue f) /\
    fs w' = <[path := getvalue f]> (fs empty_world) /\
    trace w' = trace empty_world.
Proof.
  intros f.
  apply (save_uploaded_file_writes_all (sample_lib []) f (py ".txt")
           empty_world 0).
  - reflexivity.
  - cbn. lia.
  - reflexivity.
Defined.

(** Opened with [delete=True] instead, the file would be gone on return. *)
Lemma file_close_delete (p : list N) (w : World) :
  fs (snd (file_close {| name := p; delete := true |} w)) !! p = None.
Proof. cbn. apply lookup_delete_eq. Qed.

(** A stream that has already been read is saved from its position on. *)
Lemma UploadedFile_read_rest (f : UploadedFile) :
  take (position f) (getvalue f) ++ UploadedFile_read f = getvalue f.
Proof. apply take_drop. Qed.

(** ** Whole runs *)

Lemma startup_world (m : ChatModel) (w : World) :
  log (ModelInit m)
    (log (Sidebar (Markdown (py "---")))
       (log (Sidebar (Header (py "Select Document Type")))
          (log (Main (Markdown
                        (py "Upload a document or provide a URL, ask your questions, " ++
                         py "and get structured answers using Google Gemini LLM!")))
             (log (Main (Title (page_facing_up ::
                                py " Loader Document QA Chatbot")))
                (log (SetPageConfig (py "Document QA Chatbot") (py "wide"))
                   w))))) =
  extend (startup_events m) w.
Proof.
  unfold extend, log, startup_events. cbn. rewrite <- !app_assoc. reflexivity.
Qed.

Lemma main_startup (lib : Extern) (ses : Session) (w : World) :
  let env := merge_dotenv (dotenv_file lib) (environ w) in
  let m := {| model := py "gemini-2.0-flash";
              model_provider := py "google-genai";
              api_key := env !! py "GOOGLE_API_KEY" |} in
  main lib ses w =
  match chat_model_init lib m with
  | inr _ =>
      document_branch lib ses (document_type ses) m (user_question ses)
        (extend (startup_events m) (set_environ env w))
  | inl msg =>
      (Raise (LibraryError msg),
       extend (startup_events m) (set_environ env w))
  end.
Proof.
  intros env m. rewrite <- startup_world.
  unfold main, bind, st_selectbox, ret. cbn.
  unfold llm_setup, init_chat_model, bind, get, emit, modify, ret. cbn.
  fold env. fold m.
  destruct (chat_model_init lib m) as [msg|[]]; cbn; [reflexivity|].
  destruct (document_type ses) eqn:Ht; reflexivity.
Qed.

Section Silent.

Context {X : Type} (sel : Event -> option X).

Lemma silent_ret {A} (a : A) : silent sel (ret a).
Proof. intros w. reflexivity. Qed.

Lemma silent_raise {A} (e : Exn) : silent sel (@raise A e).
Proof. intros w. reflexivity. Qed.

Lemma silent_lift {A} (r : result A) : silent sel (lift r).
Proof. intros w. reflexivity. Qed.

Lemma silent_library {A} (r : list N + A) : silent sel (library r).
Proof. destruct r; intros w; reflexivity. Qed.

Lemma silent_first {A} (l : list A) : silent sel (first l).
Proof. destruct l; intros w; reflexivity. Qed.

Lemma silent_get : silent sel get.
Proof. intros w. reflexivity. Qed.

Lemma silent_modify (f : World -> World) :
  (forall w, trace (f w) = trace w) -> silent sel (modify f).
Proof. intros Hf w. cbn. rewrite Hf. reflexivity. Qed.

Lemma silent_emit (e : Event) : sel e = None -> silent sel (emit e).
Proof.
  intros He w. cbn. rewrite omap_app. cbn. rewrite He. apply app_nil_r.
Qed.

Lemma silent_bind {A B} (m : M A) (k : A -> M B) :
  silent sel m -> (forall a, silent sel (k a)) -> silent sel (bind m k).
Proof.
  intros Hm Hk w. unfold bind. specialize (Hm w).
  destruct (m w) as [[a|e] w1]; cbn in *.
  - rewrite Hk. exact Hm.
  - exact Hm.
Qed.

Lemma silent_with_file {A} (f : TemporaryFile) (body : M A) :
  silent sel body -> silent sel (with_file f body).
Proof.
  intros Hb w. unfold with_file. specialize (Hb w).
  destruct (body w) as [r w1]. unfold file_close. cbn in *.
  destruct (delete f); exact Hb.
Qed.
End Silent.

Ltac silent_step :=
  first
    [ apply silent_ret | apply silent_raise | apply silent_lift
    | apply silent_library | apply silent_first | apply silent_get
    | apply silent_emit; reflexivity
    | apply silent_modify; intros ?; reflexivity
    | apply silent_with_file
    | apply silent_bind; [|intros ?]
    | match goal with
      | |- silent _ (match ?x with _ => _ end) => destruct x
      end ].

Lemma silent_save_uploaded_file {X} (sel : Event -> option X) lib f suffix :
  silent sel (save_uploaded_file lib f suffix).
Proof.
  unfold save_uploaded_file, NamedTemporaryFile, file_write.
  repeat silent_step.
Qed.

Lemma silent_show_rows {X} (sel : Event -> option X) i docs :
  (forall e, In e (row_blocks i docs) -> sel e = None) ->
  silent sel (show_rows i docs).
Proof.
  intros H w. rewrite show_rows_run. cbn.
  rewrite omap_app.
  assert (omap sel (row_blocks i docs) = []) as ->; [|apply app_nil_r].
  induction (row_blocks i docs) as [|e l IH]; [reflexivity|].
  cbn. rewrite (H e) by (left; reflexivity). apply IH.
  intros e' He'. apply H. right. exact He'.
Qed.

Lemma row_blocks_display i docs e :
  In e (row_blocks i docs) -> exists el, e = Main el.
Proof.
  revert i. induction docs as [|d rest IH]; intros i; [intros []|].
  cbn [row_blocks]. intros [<-|[<-|[<-|H]]]; eauto.
Qed.

Lemma silent_qa_chain_invoke_models lib m input :
  silent model_built (qa_chain_invoke lib m input).
Proof.
  unfold qa_chain_invoke, template_invoke, llm_invoke, parser_invoke.
  repeat silent_step.
Qed.

Ltac silent_script :=
  repeat first
    [ apply silent_save_uploaded_file
    | apply silent_qa_chain_invoke_models
    | apply silent_show_rows;
      intros ? [? ->]%row_blocks_display; reflexivity
    | silent_step ].

Lemma branches_build_no_model lib ses t m q :
  silent model_built (document_branch lib ses t m q).
Proof.
  destruct t; cbn [document_branch];
    unfold text_document, webbase_document, csv_document, pdf_document,
      text_document_loaded, webbase_document_loaded, csv_document_loaded,
      pdf_document_loaded, read_file, st_info, st_file_uploader,
      st_text_input, st_button, st_subheader, st_write.
  all: silent_script.
Qed.

Lemma no_question_no_model_call lib ses t m :
  silent model_call (document_branch lib ses t m []).
Proof.
  destruct t; cbn [document_branch];
    unfold text_document, webbase_document, csv_document, pdf_document,
      text_document_loaded, webbase_document_loaded, csv_document_loaded,
      pdf_document_loaded, read_file, st_info, st_file_uploader,
      st_text_input, st_button, st_subheader, st_write.
  all: cbn [truthy andb].
  all: silent_script.
Qed.

(** C5, as the script has it: whatever the environment and the .env file
    hold and whatever the user does, a run builds exactly one model, with
    the name gemini-2.0-flash and the provider google-genai; of the
    environment only the provider's key reaches it. *)
Theorem main_builds_fixed_model (lib : Extern) (ses : Session) (w : World) :
  models_built (trace (snd (main lib ses w))) =
  models_built (trace w) ++
  [{| model := py "gemini-2.0-flash";
      model_provider := py "google-genai";
      api_key := merge_dotenv (dotenv_file lib) (environ w)
                   !! py "GOOGLE_API_KEY" |}].
Proof.
  rewrite main_startup. cbv zeta. unfold models_built.
  destruct (chat_model_init lib _) as [msg|[]]; cbn [snd];
    rewrite ?branches_build_no_model;
    rewrite trace_extend, omap_app; reflexivity.
Qed.

(** Without a question no run calls the model. *)
Lemma main_no_question_no_model_call (lib : Extern) (ses : Session)
    (w : World) :
  user_question ses = [] ->
  model_calls (trace (snd (main lib ses w))) = model_calls (trace w).
Proof.
  intros Hq. rewrite main_startup, Hq. cbv zeta. unfold model_calls.
  destruct (chat_model_init lib _) as [msg|[]]; cbn [snd];
    rewrite ?no_question_no_model_call;
    rewrite trace_extend, omap_app; cbn; apply app_nil_r.
Qed.

(** A run with an uploaded file saves it, loads the documents from the
    saved file and goes on with the loaded part of the branch. *)
Lemma upload_branch_loaded (lib : Extern) (ses : Session) (t : DocType)
    (m : ChatModel) (q : list N) (w : World) (n : list N)
    (content : list Byte.byte) (i : nat) :
  t <> WebBaseDocument ->
  upload ses = Some (n, content) ->
  (i < TMP_MAX lib)%nat ->
  fs w !! tmp_path lib (tmp_draws w + i) (suffix_of t) = None ->
  exists path w1,
    fs w !! path = None /\
    fs w1 = <[path := content]> (fs w) /\
    (exists info, trace w1 = trace w ++ [Main (Info info)]) /\
    document_branch lib ses t m q w =
      bind (library (load_documents lib t path content))
           (document_loaded lib ses t m q) w1.
Proof.
  intros Ht Hup Hi Hfree.
  set (f := {| file_name := n; getvalue := content; position := 0 |}).
  assert (Hrun : forall e,
    exists j,
      fs w !! tmp_path lib (tmp_draws w + j) (suffix_of t) = None /\
      save_uploaded_file lib f (suffix_of t) (log e w) =
        (Ok (tmp_path lib (tmp_draws w + j) (suffix_of t)),
         set_tmp_draws (S (tmp_draws w + j))
           (set_fs (<[tmp_path lib (tmp_draws w + j) (suffix_of t) :=
                        content]> (fs w)) (log e w)))).
  { intros e.
    destruct (save_uploaded_file_run lib f (suffix_of t) (log e w) i Hi Hfree)
      as (j & Hnone & Hsave).
    exists j. split; assumption. }
  destruct t; [|congruence| |];
    cbn [document_branch document_loaded load_documents suffix_of] in *;
    unfold text_document, csv_document, pdf_document;
    match goal with
    | |- context [bind (st_info ?msg) _] =>
        destruct (Hrun (Main (Info msg))) as (j & Hnone & Hsave)
    end;
    match type of Hsave with
    | _ = (Ok ?p, ?w1) => exists p, w1
    end;
    (split; [exact Hnone|]);
    (split; [reflexivity|]);
    (split; [eexists; reflexivity|]);
    unfold bind at 1, st_info, emit, modify;
    unfold bind at 1, st_file_uploader, ret; rewrite Hup; fold f;
    unfold bind at 1; rewrite Hsave;
    unfold bind at 1, read_file, bind at 1, get, ret;
    cbn [fs set_fs set_tmp_draws];
    rewrite lookup_insert_eq; reflexivity.
Qed.

(** A run with a URL loads the page and goes on with the loaded part. *)
Lemma webbase_branch_loaded (lib : Extern) (ses : Session) (m : ChatModel)
    (q : list N) (w : World) :
  truthy (url ses) = true ->
  exists info,
    webbase_document lib ses m q w =
      bind (library (load_documents lib WebBaseDocument (url ses) []))
           (webbase_document_loaded lib ses m q)
           (log (Main (Info info)) w).
Proof.
  intros Hurl. eexists. unfold webbase_document, bind at 1, st_info.
  cbn. rewrite Hurl. reflexivity.
Qed.

(** * Further properties *)

(** ** The template and its variables *)

Lemma format_go_plain kw s rest :
  plain s = true ->
  format_go kw None (s ++ rest) =
  result_bind (format_go kw None rest) (fun r => Ok (s ++ r)).
Proof.
  induction s as [|c s IH]; intros Hs.
  - cbn. destruct (format_go kw None rest); reflexivity.
  - cbn [plain forallb] in Hs. apply andb_true_iff in Hs as [Hc Hs].
    apply andb_true_iff in Hc as [Hl Hr].
    apply negb_true_iff in Hl, Hr.
    cbn [app format_go]. rewrite Hl, Hr, (IH Hs).
    destruct (format_go kw None rest); reflexivity.
Qed.

Lemma format_go_name kw acc name rest :
  no_rbrace name = true ->
  format_go kw (Some acc) (name ++ rbrace :: rest) =
  match dict_get kw (acc ++ name) with
  | Some v => result_bind (format_go kw None rest) (fun r => Ok (v ++ r))
  | None => Raise (KeyError (acc ++ name))
  end.
Proof.
  revert acc. induction name as [|c name IH]; intros acc Hn.
  - cbn [app format_go]. rewrite N.eqb_refl, app_nil_r. reflexivity.
  - cbn [no_rbrace forallb] in Hn. apply andb_true_iff in Hn as [Hc Hn].
    apply negb_true_iff in Hc.
    cbn [app format_go]. rewrite Hc, (IH (acc ++ [c]) Hn), <- app_assoc.
    reflexivity.
Qed.

Lemma format_go_field kw c name rest :
  N.eqb c lbrace = false ->
  no_rbrace (c :: name) = true ->
  format_go kw None (lbrace :: (c :: name) ++ rbrace :: rest) =
  match dict_get kw (c :: name) with
  | Some v => result_bind (format_go kw None rest) (fun r => Ok (v ++ r))
  | None => Raise (KeyError (c :: name))
  end.
Proof.
  intros Hc Hn. cbn [no_rbrace forallb] in Hn.
  apply andb_true_iff in Hn as [Hr Hn]. apply negb_true_iff in Hr.
  cbn [format_go app]. rewrite N.eqb_refl, Hc, Hr.
  rewrite (format_go_name kw [c] name rest Hn). reflexivity.
Qed.

Lemma template_fields :
  template =
  prompt_head ++
  lbrace :: py "question" ++ rbrace ::
  (prompt_middle ++ lbrace :: py "text" ++ rbrace :: (prompt_tail ++ [])).
Proof. vm_compute. reflexivity. Qed.

(** X1: the template needs exactly the variables question and text,
    whatever else the input holds and in whatever order: with both bound
    the prompt is built from their values; without question the result is
    KeyError question, and with question but without text it is KeyError
    text. *)
Theorem template_format_needs_both (kw : list (list N * list N)) :
  template_format kw =
  match dict_get kw (py "question"), dict_get kw (py "text") with
  | Some q, Some t => Ok (prompt_of q t)
  | None, _ => Raise (KeyError (py "question"))
  | Some _, None => Raise (KeyError (py "text"))
  end.
Proof.
  unfold template_format. rewrite template_fields.
  rewrite format_go_plain by (vm_compute; reflexivity).
  change (py "question") with (113%N :: py "uestion").
  rewrite format_go_field by (vm_compute; reflexivity).
  rewrite format_go_plain by (vm_compute; reflexivity).
  change (py "text") with (116%N :: py "ext").
  rewrite format_go_field by (vm_compute; reflexivity).
  rewrite format_go_plain by (vm_compute; reflexivity).
  cbn [format_go result_bind].
  destruct (dict_get kw (113%N :: py "uestion")) as [q|]; [|reflexivity].
  destruct (dict_get kw (116%N :: py "ext")) as [t|]; [|reflexivity].
  cbn [result_bind]. unfold prompt_of. rewrite app_nil_r. reflexivity.
Qed.

(** X2: the prompt does not tell where the question ends and the excerpt
    begins: a question that carries the template text between the two
    fields yields the same prompt as a shorter question with a longer
    excerpt. *)
Theorem prompt_is_ambiguous (a b c : list N) :
  compose_prompt (a ++ prompt_middle ++ b) c =
  compose_prompt a (b ++ prompt_middle ++ c).
Proof.
  unfold compose_prompt. rewrite !template_format_qa_input.
  unfold prompt_of. rewrite <- !app_assoc. reflexivity.
Qed.

Lemma prompt_of_length q t :
  length (prompt_of q t) = (length q + length t + 214)%nat.
Proof.
  unfold prompt_of. rewrite !length_app.
  change (length prompt_head) with 26%nat.
  change (length prompt_middle) with 62%nat.
  change (length prompt_tail) with 126%nat. lia.
Qed.

(** ** The branches once the documents are loaded *)

(** X3: in the Text, WebBase and PDF branches with a question and at
    least one segment, the excerpt is the first segment cut to 2000
    characters: it is a prefix of the content, its length is the smaller
    of 2000 and the length of the content, and content of at most 2000
    characters is passed whole. *)
Theorem first_segment_excerpt_bounded (lib : Extern) (ses : Session)
    (m : ChatModel) (t : DocType) (q : list N) (d : Document)
    (rest : list Document) (w : World) :
  t <> CSVDocument ->
  truthy q = true ->
  let w' := snd (document_loaded lib ses t m q (d :: rest) w) in
  exists excerpt,
    excerpts (trace w') = excerpts (trace w) ++ [excerpt] /\
    excerpt ++ drop 2000 (page_content d) = page_content d /\
    length excerpt = Nat.min 2000 (length (page_content d)) /\
    ((length (page_content d) <= 2000)%nat -> excerpt = page_content d).
Proof.
  intros Ht Hq w'. exists (take 2000 (page_content d)).
  split; [|split; [apply take_drop|split; [apply length_take | apply take_ge]]].
  subst w'. destruct t; [| |congruence|]; cbn [document_loaded];
    unfold_script; rewrite Hq; unfold bind; go lib; read_trace; reflexivity.
Qed.

Lemma first_segment_excerpt_bounded_witness :
  let d := page "a short page" in
  let w' := snd (document_loaded (sample_lib [d])
                   (sample_session WebBaseDocument (py "Why?") None)
                   WebBaseDocument sample_model (py "Why?") [d]
                   empty_world) in
  exists excerpt,
    excerpts (trace w') = excerpts (trace empty_world) ++ [excerpt] /\
    excerpt ++ drop 2000 (page_content d) = page_content d /\
    length excerpt = Nat.min 2000 (length (page_content d)) /\
    ((length (page_content d) <= 2000)%nat -> excerpt = page_content d).
Proof.
  intros d.
  apply (first_segment_excerpt_bounded (sample_lib [d])
           (sample_session WebBaseDocument (py "Why?") None) sample_model
           WebBaseDocument (py "Why?") d [] empty_world).
  - discriminate.
  - reflexivity.
Defined.

(** X4: in the same branches the prompt sent to the model is at most the
    length of the question plus 2214 characters: 2000 of excerpt and 214
    of template text. *)
Theorem first_segment_prompt_bounded (lib : Extern) (ses : Session)
    (m : ChatModel) (t : DocType) (q : list N) (d : Document)
    (rest : list Document) (w : World) :
  t <> CSVDocument ->
  truthy q = true ->
  let w' := snd (document_loaded lib ses t m q (d :: rest) w) in
  exists prompt,
    model_calls (trace w') = model_calls (trace w) ++ [prompt] /\
    (length prompt <= length q + 2214)%nat.
Proof.
  intros Ht Hq w'. exists (prompt_of q (take 2000 (page_content d))).
  split.
  - subst w'. destruct t; [| |congruence|]; cbn [document_loaded];
      unfold_script; rewrite Hq; unfold bind; go lib; read_trace; reflexivity.
  - rewrite prompt_of_length, length_take. lia.
Qed.

Lemma first_segment_prompt_bounded_witness :
  let d := {| page_content := replicate 5000 97; metadata := [] |} in
  let w' := snd (document_loaded (sample_lib [d])
                   (sample_session PDFDocument (py "Why?") None)
                   PDFDocument sample_model (py "Why?") [d] empty_world) in
  exists prompt,
    model_calls (trace w') = model_calls (trace empty_world) ++ [prompt] /\
    (length prompt <= length (py "Why?") + 2214)%nat.
Proof.
  intros d.
  apply (first_segment_prompt_bounded (sample_lib [d])
           (sample_session PDFDocument (py "Why?") None) sample_model
           PDFDocument (py "Why?") d [] empty_world).
  - discriminate.
  - reflexivity.
Defined.

(** X5: a CSV of at most 20 rows and a question: the excerpt holds every
    row in full and in row order: the content of the first row, then for
    each further row a newline and the content of that row; no row and no
    character is cut.  With no row the excerpt is empty. *)
Theorem csv_few_rows_excerpt_is_all_rows (lib : Extern) (ses : Session)
    (m : ChatModel) (q : list N) (docs : list Document) (w : World) :
  truthy q = true ->
  (length docs <= 20)%nat ->
  let w' := snd (csv_document_loaded lib ses m q docs w) in
  excerpts (trace w') =
    excerpts (trace w) ++
    [match docs with
     | [] => []
     | r1 :: others =>
         page_content r1 ++
         concat (List.map (fun r => nl :: page_content r) others)
     end].
Proof.
  intros Hq Hlen w'. subst w'.
  rewrite (csv_excerpt_run lib ses m q docs w Hq).
  rewrite take_ge by exact Hlen.
  destruct docs as [|r1 others]; [reflexivity|].
  cbn [List.map]. rewrite join_newline, map_map. reflexivity.
Qed.

Lemma csv_few_rows_excerpt_is_all_rows_witness :
  let docs := [row 0 "x: 1"; row 1 "x: 2"; row 2 "x: 3"] in
  let w' := snd (csv_document_loaded (sample_lib docs)
                   (sample_session CSVDocument (py "Why?") None)
                   sample_model (py "Why?") docs empty_world) in
  excerpts (trace w') =
    excerpts (trace empty_world) ++
    [py "x: 1" ++ nl :: py "x: 2" ++ nl :: py "x: 3"].
Proof.
  intros docs.
  refine (csv_few_rows_excerpt_is_all_rows (sample_lib docs)
            (sample_session CSVDocument (py "Why?") None) sample_model
            (py "Why?") docs empty_world eq_refl _).
  cbn. lia.
Defined.

(** X6: showing the content of a document without segments: in the Text
    and PDF branches, and in the WebBase branch without a question, a
    click on the show-content button displays the heading and then ends
    the run in IndexError. *)
Theorem show_content_without_segments_raises (lib : Extern) (ses : Session)
    (m : ChatModel) (t : DocType) (q : list N) (w : World) :
  t <> CSVDocument ->
  (t = WebBaseDocument -> q = []) ->
  clicked ses = Some (show_button t) ->
  exists title,
    document_loaded lib ses t m q [] w =
    (Raise IndexError, log (Main (Subheader title)) w).
Proof.
  intros Ht Hweb Hc. apply pressed_clicked in Hc.
  destruct t; [| |congruence|]; cbn [document_loaded show_button] in *;
    unfold_script; eexists.
  - destruct q; unfold bind; run; rewrite Hc; run; reflexivity.
  - rewrite (Hweb eq_refl). unfold bind; run; rewrite Hc; run; reflexivity.
  - destruct q; unfold bind; run; rewrite Hc; run; reflexivity.
Qed.

Lemma show_content_without_segments_raises_witness :
  exists title,
    document_loaded (sample_lib [])
      (sample_session PDFDocument (py "Why?") (Some (py "Show PDF Content")))
      PDFDocument sample_model (py "Why?") [] empty_world =
    (Raise IndexError, log (Main (Subheader title)) empty_world).
Proof.
  apply (show_content_without_segments_raises (sample_lib [])
           (sample_session PDFDocument (py "Why?")
              (Some (py "Show PDF Content")))
           sample_model PDFDocument (py "Why?") empty_world).
  - discriminate.
  - discriminate.
  - reflexivity.
Defined.

(** X7: "Show CSV Content" without a question, for any number of rows:
    the run displays three elements per row and nothing else, and the row
    at index i of the loaded list is shown under the heading "Row i+1",
    followed by its content and then its metadata. *)
Theorem show_csv_numbers_rows (lib : Extern) (ses : Session) (m : ChatModel)
    (docs : list Document) (w : World) :
  clicked ses = Some (py "Show CSV Content") ->
  exists shown,
    csv_document_loaded lib ses m [] docs w = (Ok tt, extend shown w) /\
    length shown = (3 * length docs)%nat /\
    forall i d, docs !! i = Some d ->
      shown !! (3 * i)%nat =
        Some (Main (Subheader (py "Row " ++ str_of_nat (i + 1)))) /\
      shown !! (3 * i + 1)%nat =
        Some (Main (Written [VStr (page_content d)])) /\
      shown !! (3 * i + 2)%nat =
        Some (Main (Written [VStr (py "Metadata:"); VDict (metadata d)])).
Proof.
  intros Hc. apply pressed_clicked in Hc. exists (row_blocks 0 docs).
  split; [|split; [apply row_blocks_length|]].
  - unfold csv_document_loaded, bind. run. rewrite Hc, show_rows_run. run.
    reflexivity.
  - intros i d Hi. apply (row_blocks_lookup 0 docs i d Hi).
Qed.

Lemma show_csv_numbers_rows_witness :
  let docs := List.map (fun n => row (Z.of_nat n) "x: 1") (seq 0 12) in
  exists shown,
    csv_document_loaded (sample_lib docs)
      (sample_session CSVDocument [] (Some (py "Show CSV Content")))
      sample_model [] docs empty_world = (Ok tt, extend shown empty_world) /\
    length shown = (3 * length docs)%nat /\
    forall i d, docs !! i = Some d ->
      shown !! (3 * i)%nat =
        Some (Main (Subheader (py "Row " ++ str_of_nat (i + 1)))) /\
      shown !! (3 * i + 1)%nat =
        Some (Main (Written [VStr (page_content d)])) /\
      shown !! (3 * i + 2)%nat =
        Some (Main (Written [VStr (py "Metadata:"); VDict (metadata d)])).
Proof.
  intros docs.
  apply (show_csv_numbers_rows (sample_lib docs)
           (sample_session CSVDocument [] (Some (py "Show CSV Content")))
           sample_model docs empty_world).
  reflexivity.
Defined.

(** The run of a loaded branch in which no button is clicked and the
    model answers. *)
Lemma document_loaded_answer_run (lib : Extern) (ses : Session)
    (m : ChatModel) (t : DocType) (q : list N) (d : Document)
    (rest : list Document) (answer : list N) (w : World) :
  truthy q = true ->
  clicked ses = None ->
  chat_completion lib m (prompt_of q (excerpt_of t (d :: rest))) =
    inr answer ->
  document_loaded lib ses t m q (d :: rest) w =
  (Ok tt,
   extend
     [PromptInvoke (qa_input q (excerpt_of t (d :: rest)));
      ModelInvoke m (prompt_of q (excerpt_of t (d :: rest)));
      Main (Subheader (check_mark :: py " Answer"));
      Main (Written [VStr answer])]
     w).
Proof.
  intros Hq Hc Hans.
  assert (Hp : forall l, pressed ses l = false)
    by (intros l; unfold pressed; rewrite Hc; reflexivity).
  destruct t; cbn [document_loaded excerpt_of] in *; unfold_script;
    rewrite Hq; unfold bind;
    repeat (progress (run; rewrite ?Hp, ?Hans)).
  all: unfold st_write, st_subheader, emit, modify, ret, extend, log;
    cbn [trace environ fs tmp_draws]; rewrite <- ?app_assoc; reflexivity.
Qed.

(** X8: with a question, at least one segment and no button clicked, when
    the model answers, the loaded part of a branch does four things in
    this order and then ends normally: it invokes the template on the
    question and the excerpt of the branch, sends the resulting prompt to
    the model, displays the heading of the answer and writes the answer
    as the model returned it. *)
Theorem answer_is_written_unchanged (lib : Extern) (ses : Session)
    (m : ChatModel) (t : DocType) (q : list N) (d : Document)
    (rest : list Document) (answer : list N) (w : World) :
  truthy q = true ->
  clicked ses = None ->
  chat_completion lib m (prompt_of q (excerpt_of t (d :: rest))) =
    inr answer ->
  document_loaded lib ses t m q (d :: rest) w =
  (Ok tt,
   extend
     [PromptInvoke (qa_input q (excerpt_of t (d :: rest)));
      ModelInvoke m (prompt_of q (excerpt_of t (d :: rest)));
      Main (Subheader (check_mark :: py " Answer"));
      Main (Written [VStr answer])]
     w).
Proof. apply document_loaded_answer_run. Qed.

Lemma answer_is_written_unchanged_witness :
  let d := page "Project X launched in 2024." in
  let q := py "When did Project X launch?" in
  document_loaded (sample_lib [d]) (sample_session TextDocument q None)
    TextDocument sample_model q [d] empty_world =
  (Ok tt,
   extend
     [PromptInvoke (qa_input q (excerpt_of TextDocument [d]));
      ModelInvoke sample_model (prompt_of q (excerpt_of TextDocument [d]));
      Main (Subheader (check_mark :: py " Answer"));
      Main (Written [VStr (py "It launched in 2024.")])]
     empty_world).
Proof.
  intros d q.
  apply (answer_is_written_unchanged (sample_lib [d])
           (sample_session TextDocument q None) sample_model TextDocument
           q d [] (py "It launched in 2024.") empty_world).
  - reflexivity.
  - reflexivity.
  - reflexivity.
Defined.

(** X9: in the Text, WebBase and PDF branches, when the model call fails
    the run ends with that failure right after the call: no answer is
    displayed, the call is not repeated, and the content is not shown
    either, even if its button was clicked. *)
Theorem model_failure_ends_run (lib : Extern) (ses : Session)
    (m : ChatModel) (t : DocType) (q : list N) (d : Document)
    (rest : list Document) (msg : list N) (w : World) :
  t <> CSVDocument ->
  truthy q = true ->
  chat_completion lib m (prompt_of q (take 2000 (page_content d))) =
    inl msg ->
  document_loaded lib ses t m q (d :: rest) w =
  (Raise (LibraryError msg),
   extend
     [PromptInvoke (qa_input q (take 2000 (page_content d)));
      ModelInvoke m (prompt_of q (take 2000 (page_content d)))]
     w).
Proof.
  intros Ht Hq Hans.
  destruct t; [| |congruence|]; cbn [document_loaded] in *; unfold_script;
    rewrite Hq; unfold bind; repeat (progress (run; rewrite ?Hans)).
  all: unfold extend, log; cbn [trace environ fs tmp_draws];
    rewrite <- ?app_assoc; reflexivity.
Qed.

Lemma model_failure_ends_run_witness :
  let d := page "Project X launched in 2024." in
  let q := py "When did Project X launch?" in
  document_loaded (failing_model_lib [d])
    (sample_session TextDocument q (Some (py "Show Full Text Content")))
    TextDocument sample_model q [d] empty_world =
  (Raise (LibraryError (py "503 Service Unavailable")),
   extend
     [PromptInvoke (qa_input q (take 2000 (page_content d)));
      ModelInvoke sample_model (prompt_of q (take 2000 (page_content d)))]
     empty_world).
Proof.
  intros d q.
  apply (model_failure_ends_run (failing_model_lib [d])
           (sample_session TextDocument q
              (Some (py "Show Full Text Content")))
           sample_model TextDocument q d [] (py "503 Service Unavailable")
           empty_world).
  - discriminate.
  - reflexivity.
  - reflexivity.
Defined.

(** ** Whole runs: what the model is asked *)

Ltac unfold_branches :=
  unfold text_document, webbase_document, csv_document, pdf_document,
    text_document_loaded, webbase_document_loaded, csv_document_loaded,
    pdf_document_loaded, read_file, st_info, st_file_uploader,
    st_text_input, st_button, st_subheader, st_write.

(** Silence by the shape of the program. *)
Ltac quiet :=
  repeat lazymatch goal with
  | |- silent _ (bind _ _) => apply silent_bind; [|intros ?]
  | |- silent _ (ret _) => apply silent_ret
  | |- silent _ (raise _) => apply silent_raise
  | |- silent _ (lift _) => apply silent_lift
  | |- silent _ (library _) => apply silent_library
  | |- silent _ (first _) => apply silent_first
  | |- silent _ get => apply silent_get
  | |- silent _ (emit _) => apply silent_emit; reflexivity
  | |- silent _ (modify _) => apply silent_modify; intros ?; reflexivity
  | |- silent _ (save_uploaded_file _ _ _) => apply silent_save_uploaded_file
  | |- silent _ (show_rows _ _) =>
      apply silent_show_rows; intros ? [? ->]%row_blocks_display; reflexivity
  | |- silent _ (match ?x with _ => _ end) => destruct x
  end.

Lemma no_question_no_prompt lib ses t m :
  silent prompt_input (document_branch lib ses t m []).
Proof.
  destruct t; cbn [document_branch]; unfold_branches; cbn [truthy andb];
    quiet.
Qed.

(** X10: a run without a question, whatever the document type, the
    input, the loader's result and the button clicked, neither invokes
    the prompt template nor calls the model. *)
Theorem no_question_never_calls_model (lib : Extern) (ses : Session)
    (w : World) :
  user_question ses = [] ->
  prompt_inputs (trace (snd (main lib ses w))) = prompt_inputs (trace w) /\
  model_calls (trace (snd (main lib ses w))) = model_calls (trace w).
Proof.
  intros Hq. rewrite main_startup, Hq. cbv zeta.
  unfold prompt_inputs, model_calls.
  destruct (chat_model_init lib _) as [msg|[]]; cbn [snd];
    rewrite ?no_question_no_prompt, ?no_question_no_model_call;
    rewrite trace_extend, !omap_app; cbn; rewrite !app_nil_r; auto.
Qed.

Lemma no_question_never_calls_model_witness :
  let lib := sample_lib [row 0 "x: 1"] in
  let ses := sample_session CSVDocument [] (Some (py "Show CSV Content")) in
  prompt_inputs (trace (snd (main lib ses empty_world))) =
    prompt_inputs (trace empty_world) /\
  model_calls (trace (snd (main lib ses empty_world))) =
    model_calls (trace empty_world).
Proof.
  intros lib ses.
  apply (no_question_never_calls_model lib ses empty_world).
  reflexivity.
Defined.

Lemma at_most_silent {A} n (m : M A) :
  silent model_call m -> calls_at_most n m.
Proof.
  intros H w. exists []. unfold model_calls. rewrite H, app_nil_r.
  split; [reflexivity | cbn; lia].
Qed.

Lemma at_most_bind_l {A B} n (m : M A) (k : A -> M B) :
  silent model_call m -> (forall a, calls_at_most n (k a)) ->
  calls_at_most n (bind m k).
Proof.
  intros Hm Hk w. unfold bind. specialize (Hm w).
  destruct (m w) as [[a|e] w1]; cbn in *.
  - destruct (Hk a w1) as (l & Hl & Hn). exists l.
    unfold model_calls in *. rewrite Hl, Hm. auto.
  - exists []. unfold model_calls. rewrite Hm, app_nil_r.
    split; [reflexivity | cbn; lia].
Qed.

Lemma at_most_bind_r {A B} n (m : M A) (k : A -> M B) :
  calls_at_most n m -> (forall a, silent model_call (k a)) ->
  calls_at_most n (bind m k).
Proof.
  intros Hm Hk w. unfold bind. destruct (Hm w) as (l & Hl & Hn).
  destruct (m w) as [[a|e] w1]; cbn in *; exists l.
  - unfold model_calls in *. rewrite Hk. auto.
  - auto.
Qed.

Lemma at_most_qa_chain_invoke lib m input :
  calls_at_most 1 (qa_chain_invoke lib m input).
Proof.
  intros w.
  unfold qa_chain_invoke, template_invoke, llm_invoke, parser_invoke,
    bind, emit, modify, lift, library, ret, raise.
  cbn. destruct (template_format input) as [p|e]; cbn.
  - exists [p]. split; [|cbn; lia].
    destruct (chat_completion lib m p); cbn;
      unfold model_calls; rewrite !omap_app; cbn; rewrite app_nil_r;
      reflexivity.
  - exists []. split; [|cbn; lia].
    unfold model_calls. rewrite omap_app. reflexivity.
Qed.

(** The one call sits in the part of a sequence that invokes the chain;
    the other part is silent. *)
Ltac at_most :=
  repeat lazymatch goal with
  | |- calls_at_most _ (qa_chain_invoke _ _ _) =>
      apply at_most_qa_chain_invoke
  | |- calls_at_most _ (bind ?m _) =>
      lazymatch m with
      | context [qa_chain_invoke] =>
          apply at_most_bind_r; [ | intros ?; solve [quiet] ]
      | _ => apply at_most_bind_l; [ solve [quiet] | intros ? ]
      end
  | |- calls_at_most _ (match ?x with _ => _ end) => destruct x
  | |- calls_at_most _ _ => apply at_most_silent; solve [quiet]
  end.

Lemma at_most_document_branch lib ses t m q :
  calls_at_most 1 (document_branch lib ses t m q).
Proof.
  destruct t; cbn [document_branch]; unfold_branches; at_most.
Qed.

(** X11: no run calls the model more than once: whatever the inputs, the
    calls a run adds to the trace are none or one; a failed call is not
    retried. *)
Theorem run_calls_model_at_most_once (lib : Extern) (ses : Session)
    (w : World) :
  exists l,
    model_calls (trace (snd (main lib ses w))) = model_calls (trace w) ++ l /\
    (length l <= 1)%nat.
Proof.
  rewrite main_startup. cbv zeta.
  destruct (chat_model_init lib _) as [msg|[]]; cbn [snd].
  - exists []. split; [|cbn; lia].
    rewrite trace_extend. unfold model_calls. rewrite omap_app. reflexivity.
  - match goal with
    | |- context [document_branch lib ses ?t ?m ?q ?w0] =>
        destruct (at_most_document_branch lib ses t m q w0) as (l & Hl & Hn)
    end.
    exists l. split; [|exact Hn]. rewrite Hl.
    rewrite trace_extend. unfold model_calls. rewrite omap_app. cbn.
    rewrite app_nil_r. reflexivity.
Qed.

(** ** Whole runs: files *)

Lemma mkstemp_inner_fresh lib suffix files tries seq s file :
  mkstemp_inner lib tries seq suffix files = Some (s, file) ->
  files !! file = None.
Proof.
  revert seq. induction tries as [|n IH]; intros seq; [discriminate|].
  cbn [mkstemp_inner].
  destruct (files !! tmp_path lib seq suffix) eqn:E.
  - apply IH.
  - intros [= <- <-]. exact E.
Qed.

Lemma save_uploaded_file_found lib f suffix w s file :
  mkstemp_inner lib (TMP_MAX lib) (tmp_draws w) suffix (fs w) =
    Some (s, file) ->
  save_uploaded_file lib f suffix w =
  (Ok file,
   set_tmp_draws s (set_fs (<[file := UploadedFile_read f]> (fs w)) w)).
Proof.
  intros Hfind.
  unfold save_uploaded_file, with_file, NamedTemporaryFile, file_write,
    file_close, bind, get, modify, ret.
  rewrite Hfind. cbn. rewrite lookup_insert_eq. cbn.
  rewrite insert_insert_eq. reflexivity.
Qed.

Lemma save_uploaded_file_exhausted lib f suffix w :
  mkstemp_inner lib (TMP_MAX lib) (tmp_draws w) suffix (fs w) = None ->
  save_uploaded_file lib f suffix w =
  (Raise FileExistsError, set_tmp_draws (tmp_draws w + TMP_MAX lib) w).
Proof.
  intros Hnone.
  unfold save_uploaded_file, with_file, NamedTemporaryFile, bind, get,
    modify, raise.
  rewrite Hnone. reflexivity.
Qed.

Lemma save_uploaded_file_ok_inv lib f suffix w p w' :
  save_uploaded_file lib f suffix w = (Ok p, w') ->
  fs w !! p = None /\ fs w' = <[p := UploadedFile_read f]> (fs w).
Proof.
  destruct (mkstemp_inner lib (TMP_MAX lib) (tmp_draws w) suffix (fs w))
    as [[s file]|] eqn:E.
  - rewrite (save_uploaded_file_found lib f suffix w s file E).
    intros [= <- <-]. split; [|reflexivity].
    exact (mkstemp_inner_fresh _ _ _ _ _ _ _ E).
  - rewrite (save_uploaded_file_exhausted lib f suffix w E). discriminate.
Qed.

(** X12: two uploads saved one after the other get different paths, and
    after the second save both files are there, each with what was read
    from its upload: a save never reuses or overwrites an earlier file. *)
Theorem saves_get_distinct_paths (lib : Extern) (f1 f2 : UploadedFile)
    (s1 s2 p1 p2 : list N) (w w1 w2 : World) :
  save_uploaded_file lib f1 s1 w = (Ok p1, w1) ->
  save_uploaded_file lib f2 s2 w1 = (Ok p2, w2) ->
  p1 <> p2 /\
  fs w2 !! p1 = Some (UploadedFile_read f1) /\
  fs w2 !! p2 = Some (UploadedFile_read f2).
Proof.
  intros H1 H2.
  apply save_uploaded_file_ok_inv in H1 as [_ E1].
  apply save_uploaded_file_ok_inv in H2 as [F2 E2].
  assert (Hne : p1 <> p2).
  { intros ->. rewrite E1, lookup_insert_eq in F2. discriminate. }
  split; [exact Hne|]. rewrite E2, E1. split.
  - rewrite lookup_insert_ne by congruence. apply lookup_insert_eq.
  - apply lookup_insert_eq.
Qed.

Lemma saves_get_distinct_paths_witness :
  let lib := sample_lib [] in
  let f1 := {| file_name := py "notes.txt";
               getvalue := [Byte.x61; Byte.x62]; position := 0 |} in
  let f2 := {| file_name := py "notes.txt";
               getvalue := [Byte.x63]; position := 0 |} in
  let r1 := save_uploaded_file lib f1 (py ".txt") empty_world in
  let r2 := save_uploaded_file lib f2 (py ".txt") (snd r1) in
  py "/tmp/tmp0.txt" <> py "/tmp/tmp1.txt" /\
  fs (snd r2) !! py "/tmp/tmp0.txt" = Some (UploadedFile_read f1) /\
  fs (snd r2) !! py "/tmp/tmp1.txt" = Some (UploadedFile_read f2).
Proof.
  intros lib f1 f2 r1 r2.
  apply (saves_get_distinct_paths lib f1 f2 (py ".txt") (py ".txt")
           (py "/tmp/tmp0.txt") (py "/tmp/tmp1.txt")
           empty_world (snd r1) (snd r2)).
  - vm_compute. reflexivity.
  - vm_compute. reflexivity.
Defined.

Lemma keeps_ret {A} (a : A) : keeps_files (ret a).
Proof. intros w p c H. exact H. Qed.

Lemma keeps_raise {A} e : keeps_files (@raise A e).
Proof. intros w p c H. exact H. Qed.

Lemma keeps_lift {A} (r : result A) : keeps_files (lift r).
Proof. intros w p c H. exact H. Qed.

Lemma keeps_library {A} (r : list N + A) : keeps_files (library r).
Proof. destruct r; intros w p c H; exact H. Qed.

Lemma keeps_first {A} (l : list A) : keeps_files (first l).
Proof. destruct l; intros w p c H; exact H. Qed.

Lemma keeps_get : keeps_files get.
Proof. intros w p c H. exact H. Qed.

Lemma keeps_emit e : keeps_files (emit e).
Proof. intros w p c H. exact H. Qed.

Lemma keeps_bind {A B} (m : M A) (k : A -> M B) :
  keeps_files m -> (forall a, keeps_files (k a)) -> keeps_files (bind m k).
Proof.
  intros Hm Hk w p c H. unfold bind. specialize (Hm w p c H).
  destruct (m w) as [[a|e] w1]; cbn in *.
  - apply Hk, Hm.
  - exact Hm.
Qed.

Lemma keeps_show_rows i docs : keeps_files (show_rows i docs).
Proof. intros w p c H. rewrite show_rows_run. exact H. Qed.

Lemma keeps_save_uploaded_file lib f suffix :
  keeps_files (save_uploaded_file lib f suffix).
Proof.
  intros w p c H.
  destruct (mkstemp_inner lib (TMP_MAX lib) (tmp_draws w) suffix (fs w))
    as [[s file]|] eqn:E.
  - rewrite (save_uploaded_file_found lib f suffix w s file E). cbn.
    rewrite lookup_insert_ne; [exact H|].
    intros ->. rewrite (mkstemp_inner_fresh _ _ _ _ _ _ _ E) in H.
    discriminate.
  - rewrite (save_uploaded_file_exhausted lib f suffix w E). exact H.
Qed.

Ltac keeps :=
  repeat lazymatch goal with
  | |- keeps_files (bind _ _) => apply keeps_bind; [|intros ?]
  | |- keeps_files (ret _) => apply keeps_ret
  | |- keeps_files (raise _) => apply keeps_raise
  | |- keeps_files (lift _) => apply keeps_lift
  | |- keeps_files (library _) => apply keeps_library
  | |- keeps_files (first _) => apply keeps_first
  | |- keeps_files get => apply keeps_get
  | |- keeps_files (emit _) => apply keeps_emit
  | |- keeps_files (save_uploaded_file _ _ _) =>
      apply keeps_save_uploaded_file
  | |- keeps_files (show_rows _ _) => apply keeps_show_rows
  | |- keeps_files (match ?x with _ => _ end) => destruct x
  end.

Lemma keeps_document_loaded lib ses t m q docs :
  keeps_files (document_loaded lib ses t m q docs).
Proof.
  destruct t; cbn [document_loaded]; unfold_branches;
    unfold qa_chain_invoke, template_invoke, llm_invoke, parser_invoke;
    keeps.
Qed.

Lemma keeps_document_branch lib ses t m q :
  keeps_files (document_branch lib ses t m q).
Proof.
  destruct t; cbn [document_branch]; unfold_branches;
    unfold qa_chain_invoke, template_invoke, llm_invoke, parser_invoke;
    keeps.
Qed.

(** X13: a run never removes or changes a file that exists when it
    starts: every such file is there afterwards with the same content,
    however the run ends. *)
Theorem run_keeps_files (lib : Extern) (ses : Session) (w : World)
    (p : list N) (c : list Byte.byte) :
  fs w !! p = Some c ->
  fs (snd (main lib ses w)) !! p = Some c.
Proof.
  intros H. rewrite main_startup. cbv zeta.
  destruct (chat_model_init lib _) as [msg|[]]; cbn [snd].
  - exact H.
  - apply keeps_document_branch. exact H.
Qed.

Lemma run_keeps_files_witness :
  fs (snd (main (sample_lib [page "notes"])
             (sample_session TextDocument (py "Why?") None) used_world))
    !! py "/tmp/tmp0.txt" = Some [Byte.x6f; Byte.x6c; Byte.x64].
Proof.
  apply (run_keeps_files (sample_lib [page "notes"])
           (sample_session TextDocument (py "Why?") None) used_world
           (py "/tmp/tmp0.txt") [Byte.x6f; Byte.x6c; Byte.x64]).
  vm_compute. reflexivity.
Defined.

(** X14: a run of a file branch with an upload, when the model is built
    and a temporary name is free, leaves the temporary file behind: at
    the end of the run, however loading and answering went, a file that
    did not exist before holds the uploaded bytes. *)
Theorem upload_run_leaves_temp_file (lib : Extern) (ses : Session)
    (w : World) (n : list N) (content : list Byte.byte) (i : nat) :
  chat_model_init lib (built_model lib w) = inr tt ->
  document_type ses <> WebBaseDocument ->
  upload ses = Some (n, content) ->
  (i < TMP_MAX lib)%nat ->
  fs w !! tmp_path lib (tmp_draws w + i) (suffix_of (document_type ses)) =
    None ->
  exists path,
    fs w !! path = None /\
    fs (snd (main lib ses w)) !! path = Some content.
Proof.
  intros Hinit Ht Hup Hi Hfree. rewrite main_startup. cbv zeta.
  fold (built_model lib w). rewrite Hinit.
  match goal with
  | |- context [document_branch lib ses ?t ?m ?q ?w0] =>
      destruct (upload_branch_loaded lib ses t m q w0 n content i
                  Ht Hup Hi Hfree)
        as (path & w1 & Hnone & Hfs & _ & Hrun)
  end.
  exists path. split; [exact Hnone|]. rewrite Hrun.
  apply keeps_bind;
    [apply keeps_library | intros docs; apply keeps_document_loaded |].
  rewrite Hfs. apply lookup_insert_eq.
Qed.

Lemma upload_run_leaves_temp_file_witness :
  let lib := keyed_lib [] in
  let ses := sample_session TextDocument (py "Why?") None in
  exists path,
    fs keyed_world !! path = None /\
    fs (snd (main lib ses keyed_world)) !! path =
      Some (list_byte_of_string "Project X launched in 2024.").
Proof.
  intros lib ses.
  apply (upload_run_leaves_temp_file lib ses keyed_world (py "notes.txt")
           (list_byte_of_string "Project X launched in 2024.") 0).
  - vm_compute. reflexivity.
  - discriminate.
  - reflexivity.
  - cbn. lia.
  - reflexivity.
Defined.

(** ** Whole runs: how they end *)

(** X15: a run in which the model is built and the user has given no
    input to the selected branch (no uploaded file, or an empty URL for
    the WebBase branch) ends normally after the page header, the model
    set-up and the hint of the branch: nothing is loaded, asked or shown,
    whatever the question and the button. *)
Theorem no_input_shows_only_info (lib : Extern) (ses : Session) (w : World) :
  chat_model_init lib (built_model lib w) = inr tt ->
  match document_type ses with
  | WebBaseDocument => url ses = []
  | _ => upload ses = None
  end ->
  exists info,
    main lib ses w =
    (Ok tt,
     extend (startup_events (built_model lib w) ++ [Main (Info info)])
       (set_environ (merge_dotenv (dotenv_file lib) (environ w)) w)).
Proof.
  intros Hinit H. rewrite main_startup. cbv zeta.
  fold (built_model lib w). rewrite Hinit.
  destruct (document_type ses); cbn [document_branch];
    unfold text_document, webbase_document, csv_document, pdf_document,
      bind, st_info, st_file_uploader, st_text_input, emit, modify, ret;
    rewrite H; cbn [truthy]; eexists; unfold extend, log;
    cbn [trace environ fs tmp_draws set_environ];
    rewrite <- ?app_assoc; reflexivity.
Qed.

Lemma no_input_shows_only_info_witness :
  exists info,
    main (keyed_lib []) (idle_session CSVDocument) keyed_world =
    (Ok tt,
     extend
       (startup_events (built_model (keyed_lib []) keyed_world) ++
        [Main (Info info)])
       (set_environ
          (merge_dotenv (dotenv_file (keyed_lib [])) (environ keyed_world))
          keyed_world)).
Proof.
  apply (no_input_shows_only_info (keyed_lib []) (idle_session CSVDocument)
           keyed_world).
  - vm_compute. reflexivity.
  - reflexivity.
Defined.

(** X16: a WebBase run in which the model is built and the page cannot
    be loaded ends with the loader's failure: the prompt template is not
    invoked, the model is not called and no text is written, whatever the
    question and the button. *)
Theorem unreachable_url_ends_run (lib : Extern) (ses : Session) (w : World)
    (msg : list N) :
  chat_model_init lib (built_model lib w) = inr tt ->
  document_type ses = WebBaseDocument ->
  truthy (url ses) = true ->
  WebBaseLoader_load lib (url ses) = inl msg ->
  fst (main lib ses w) = Raise (LibraryError msg) /\
  prompt_inputs (trace (snd (main lib ses w))) = prompt_inputs (trace w) /\
  model_calls (trace (snd (main lib ses w))) = model_calls (trace w) /\
  written_texts (trace (snd (main lib ses w))) = written_texts (trace w).
Proof.
  intros Hinit Ht Hurl Hload. rewrite main_startup, Ht. cbv zeta.
  fold (built_model lib w). rewrite Hinit.
  cbn [document_branch].
  unfold webbase_document, bind, st_info, st_text_input, emit, modify, ret.
  rewrite Hurl, Hload. cbn [library raise fst snd].
  split; [reflexivity|]. do 2 read_trace. unfold startup_events.
  read_trace. auto.
Qed.

Lemma unreachable_url_ends_run_witness :
  let ses := sample_session WebBaseDocument (py "Why?")
               (Some (py "Show Page Content")) in
  fst (main unreachable_lib ses keyed_world) =
    Raise (LibraryError (py "connection refused")) /\
  prompt_inputs (trace (snd (main unreachable_lib ses keyed_world))) =
    prompt_inputs (trace keyed_world) /\
  model_calls (trace (snd (main unreachable_lib ses keyed_world))) =
    model_calls (trace keyed_world) /\
  written_texts (trace (snd (main unreachable_lib ses keyed_world))) =
    written_texts (trace keyed_world).
Proof.
  intros ses.
  apply (unreachable_url_ends_run unreachable_lib ses keyed_world
           (py "connection refused")).
  - vm_compute. reflexivity.
  - reflexivity.
  - reflexivity.
  - reflexivity.
Defined.













(** X18: a whole run of a file branch from upload to answer: when the
    model is built, with an uploaded file, a free temporary name, a
    loader that returns at least one segment for the saved file, a
    question, no button clicked and a model that answers, the run ends
    normally, the model is called once, on the prompt built from the
    question and the excerpt of the branch, and the only text written is
    the model's answer. *)
Theorem upload_run_answers (lib : Extern) (ses : Session) (w : World)
    (n : list N) (content : list Byte.byte) (i : nat)
    (excerpt answer : list N) :
  let t := document_type ses in
  let q := user_question ses in
  chat_model_init lib (built_model lib w) = inr tt ->
  t <> WebBaseDocument ->
  upload ses = Some (n, content) ->
  (i < TMP_MAX lib)%nat ->
  fs w !! tmp_path lib (tmp_draws w + i) (suffix_of t) = None ->
  (forall path, exists d rest,
      load_documents lib t path content = inr (d :: rest) /\
      excerpt_of t (d :: rest) = excerpt) ->
  truthy q = true ->
  clicked ses = None ->
  chat_completion lib (built_model lib w) (prompt_of q excerpt) =
    inr answer ->
  fst (main lib ses w) = Ok tt /\
  model_calls (trace (snd (main lib ses w))) =
    model_calls (trace w) ++ [prompt_of q excerpt] /\
  written_texts (trace (snd (main lib ses w))) =
    written_texts (trace w) ++ [answer].
Proof.
  intros t q Hinit Ht Hup Hi Hfree Hload Hq Hc Hans. subst t q.
  rewrite main_startup. cbv zeta. fold (built_model lib w) in *.
  rewrite Hinit.
  match goal with
  | |- context [document_branch lib ses ?t ?m ?q ?w0] =>
      destruct (upload_branch_loaded lib ses t m q w0 n content i
                  Ht Hup Hi Hfree)
        as (path & w1 & _ & _ & [info Htr] & Hrun)
  end.
  destruct (Hload path) as (d & rest & Hl & He). rewrite <- He in *.
  rewrite Hrun. unfold bind. rewrite Hl.
  cbn [library ret].
  rewrite (document_loaded_answer_run lib ses _ _ _ d rest answer w1
             Hq Hc Hans).
  cbn [fst snd]. split; [reflexivity|].
  rewrite trace_extend, Htr, trace_extend. cbn [trace set_environ].
  unfold startup_events. read_trace. cbn [app]. auto.
Qed.

Lemma upload_run_answers_witness :
  let lib := keyed_lib [] in
  let q := py "When did Project X launch?" in
  let ses := sample_session TextDocument q None in
  fst (main lib ses keyed_world) = Ok tt /\
  model_calls (trace (snd (main lib ses keyed_world))) =
    model_calls (trace keyed_world) ++
    [prompt_of q (py "Project X launched in 2024.")] /\
  written_texts (trace (snd (main lib ses keyed_world))) =
    written_texts (trace keyed_world) ++ [py "It launched in 2024."].
Proof.
  intros lib q ses.
  apply (upload_run_answers lib ses keyed_world (py "notes.txt")
           (list_byte_of_string "Project X launched in 2024.") 0
           (py "Project X launched in 2024.")
           (py "It launched in 2024.")).
  - vm_compute. reflexivity.
  - discriminate.
  - reflexivity.
  - cbn. lia.
  - reflexivity.
  - intros path. eexists _, _. split; reflexivity.
  - reflexivity.
  - reflexivity.
  - reflexivity.
Defined.
